(** * The resource view of yaki: a shallow embedding of
      [src/app/views/apps/components/resourceview/resourceview.component.ts]

    The component is a listener on the backend's command-result channel and a
    subscriber of the application's lifecycle events.  Its handlers work on
    untyped JSON data ([ev: any]), so the embedding starts with the JavaScript
    values such data is made of and the handful of language operations the
    handlers apply to them: property reads that throw on [null] and
    [undefined], truthiness, [x.length > 0], assignment to a property, [Map].
    The component itself follows: its fields, the effects it has on its
    surroundings (console, timers, grid, listener registry, event bus), and
    one definition per method. *)

From Stdlib Require Import List String Ascii ZArith Bool Arith Lia.
From Stdlib Require Import DecimalString.
Import ListNotations.

Set Warnings "-register-all".

Local Open Scope string_scope.
Local Open Scope Z_scope.

(* ===================================================================== *)
(** * JavaScript values *)
(* ===================================================================== *)

Module JS.

(** A value as [JSON.parse] builds it, plus [undefined].  An object is the
    list of its own properties in insertion order, without repeated keys.
    An array carries its elements and, separately, the named properties an
    assignment such as [a.usage = u] may add to it.  Numbers are the
    integers: the component only tests a number for zero and compares a
    length with [0]. *)
Inductive value : Type :=
| VUndefined
| VNull
| VBool (b : bool)
| VNum (n : Z)
| VStr (s : string)
| VArr (elems : list value) (props : list (string * value))
| VObj (props : list (string * value)).

Inductive exn : Type := TypeError | SyntaxError.

Inductive result (A : Type) : Type :=
| Ok (a : A)
| Throw (e : exn).
Arguments Ok {A} a.
Arguments Throw {A} e.

Definition bind {A B} (r : result A) (k : A -> result B) : result B :=
  match r with
  | Ok a => k a
  | Throw e => Throw e
  end.

Declare Scope js_scope.
Delimit Scope js_scope with js.
Notation "'let!' x ':=' c 'in' k" := (bind c (fun x => k))
  (at level 10, x pattern, c at level 100, k at level 200) : js_scope.

(** [forEach] with a callback that rewrites the element it visits: the
    elements after the loop, or the first exception. *)
Fixpoint forEach (f : value -> result value) (l : list value)
  : result (list value) :=
  match l with
  | [] => Ok []
  | x :: l' =>
      bind (f x) (fun y => bind (forEach f l') (fun l'' => Ok (y :: l'')))
  end.

(** ** Own properties *)

Fixpoint assoc (k : string) (ps : list (string * value)) : option value :=
  match ps with
  | [] => None
  | (k', v) :: ps' => if String.eqb k k' then Some v else assoc k ps'
  end.

(** Writing an own property: an existing key keeps its place, a new key
    goes last. *)
Fixpoint assoc_set (k : string) (x : value) (ps : list (string * value))
  : list (string * value) :=
  match ps with
  | [] => [(k, x)]
  | (k', v) :: ps' =>
      if String.eqb k k' then (k', x) :: ps' else (k', v) :: assoc_set k x ps'
  end.

Definition lookup (k : string) (ps : list (string * value)) : value :=
  match assoc k ps with
  | Some v => v
  | None => VUndefined
  end.

(** ** Truthiness: [if (v)], [!v], [a && b] *)
Definition truthy (v : value) : bool :=
  match v with
  | VUndefined | VNull => false
  | VBool b => b
  | VNum n => negb (n =? 0)
  | VStr s => negb (String.eqb s EmptyString)
  | VArr _ _ | VObj _ => true
  end.

(** ** Reading a property by name: [v.k]

    [k] ranges over the identifiers of the component's source ([items],
    [spec], [containers], [length], ...), none of which is inherited from a
    prototype except [length] of arrays and strings.  Reading from [null] or
    [undefined] throws. *)
Definition get (v : value) (k : string) : result value :=
  match v with
  | VUndefined | VNull => Throw TypeError
  | VBool _ | VNum _ => Ok VUndefined
  | VStr s =>
      if String.eqb k "length" then Ok (VNum (Z.of_nat (String.length s)))
      else Ok VUndefined
  | VArr l ps =>
      if String.eqb k "length" then Ok (VNum (Z.of_nat (List.length l)))
      else Ok (lookup k ps)
  | VObj ps => Ok (lookup k ps)
  end.

Definition string_of_index (i : nat) : string :=
  NilZero.string_of_uint (Nat.to_uint i).

(** ** Reading an element: [v[i]] *)
Definition get_index (v : value) (i : nat) : result value :=
  match v with
  | VUndefined | VNull => Throw TypeError
  | VBool _ | VNum _ => Ok VUndefined
  | VStr s =>
      match String.get i s with
      | Some c => Ok (VStr (String c EmptyString))
      | None => Ok VUndefined
      end
  | VArr l _ => Ok (nth i l VUndefined)
  | VObj ps => Ok (lookup (string_of_index i) ps)
  end.

(** ** The holder of a property after the property changed

    JavaScript objects are mutated in place; here a value is a tree, and an
    assignment deep inside it is threaded back to the root.  [put v k x] is
    the object [v] once its property [k] holds [x]; [put_index v i x] is [v]
    once its existing element [i] holds [x].  A primitive holds no property
    and is returned as it is. *)
Definition put (v : value) (k : string) (x : value) : value :=
  match v with
  | VArr l ps => VArr l (assoc_set k x ps)
  | VObj ps => VObj (assoc_set k x ps)
  | _ => v
  end.

Fixpoint replace_nth (i : nat) (x : value) (l : list value) : list value :=
  match l, i with
  | [], _ => []
  | _ :: l', O => x :: l'
  | y :: l', S i' => y :: replace_nth i' x l'
  end.

Definition put_index (v : value) (i : nat) (x : value) : value :=
  match v with
  | VArr l ps => VArr (replace_nth i x l) ps
  | VObj ps => VObj (assoc_set (string_of_index i) x ps)
  | _ => v
  end.

(** ** Assigning a property: [v.k = x]

    The component is strict-mode code (a class in an ES module), where
    creating a property on a primitive throws like one on [null].  It
    assigns the names [items], [usage] and [flat] only. *)
Definition set (v : value) (k : string) (x : value) : result value :=
  match v with
  | VUndefined | VNull | VBool _ | VNum _ | VStr _ => Throw TypeError
  | VArr _ _ | VObj _ => Ok (put v k x)
  end.

(** ** [ToString], as applied by [JSON.parse] and by [>] to their operand *)
Definition string_of_Z (n : Z) : string :=
  NilZero.string_of_int (Z.to_int n).

Fixpoint join (sep : string) (l : list string) : string :=
  match l with
  | [] => EmptyString
  | [s] => s
  | s :: l' => s ++ sep ++ join sep l'
  end.

Fixpoint ToString (v : value) : string :=
  match v with
  | VUndefined => "undefined"
  | VNull => "null"
  | VBool true => "true"
  | VBool false => "false"
  | VNum n => string_of_Z n
  | VStr s => s
  | VArr l _ =>
      join ","
        (List.map (fun x => match x with
                            | VUndefined | VNull => EmptyString
                            | _ => ToString x
                            end) l)
  | VObj _ => "[object Object]"
  end.

(** ** [v > 0]

    Both operands are converted to numbers; a string through the runtime's
    [StringToNumber], taken here as the parameter [string_gt0] (whether the
    number a string denotes is positive), an array through its [ToString]. *)
Definition gt0 (string_gt0 : string -> bool) (v : value) : bool :=
  match v with
  | VNum n => 0 <? n
  | VBool b => b
  | VStr s => string_gt0 s
  | VArr _ _ => string_gt0 (ToString v)
  | VUndefined | VNull | VObj _ => false
  end.

(** ** [Array.prototype.forEach] on an arbitrary receiver *)
Definition elements (v : value) : result (list value) :=
  match v with
  | VUndefined | VNull => Throw TypeError
  | VArr l _ => Ok l
  | _ => Throw TypeError          (* [v.forEach] is not a function *)
  end.

(** ** [Map]: keys compare by SameValueZero.

    Two objects are the same key only when they are the same object; the
    keys the component stores come out of one parse and the keys it looks
    up out of another, so an object never matches. *)
Definition same_value_zero (a b : value) : bool :=
  match a, b with
  | VUndefined, VUndefined => true
  | VNull, VNull => true
  | VBool x, VBool y => Bool.eqb x y
  | VNum x, VNum y => x =? y
  | VStr x, VStr y => String.eqb x y
  | _, _ => false
  end.

Definition Map := list (value * value).

Definition Map_new : Map := [].

Fixpoint map_get (m : Map) (k : value) : value :=
  match m with
  | [] => VUndefined
  | (k', v) :: m' => if same_value_zero k k' then v else map_get m' k
  end.

Fixpoint map_set (m : Map) (k x : value) : Map :=
  match m with
  | [] => [(k, x)]
  | (k', v) :: m' =>
      if same_value_zero k k' then (k', x) :: m' else (k', v) :: map_set m' k x
  end.

End JS.

(* ===================================================================== *)
(** * The component and its surroundings *)
(* ===================================================================== *)

Import JS.
Local Open Scope js_scope.

(** ** What is declared outside the component's file *)

(** The constants of the backend service the component reads:
    [beService.response_channel.app_command_result],
    [beService.ngeventbus.app_events] and the three signals
    [beService.ngevent.cluster_changed], [.ns_changed] and [.escape_hit].
    Their values are declared in the service and enter as parameters. *)
Record TauriAdapter : Type := {
  app_command_result : string;
  app_events : string;
  cluster_changed : string;
  ns_changed : string;
  escape_hit : string
}.

(** The functions the handlers take from the runtime and from libraries:
    [JSON.parse] on a string ([None] for a [SyntaxError]), the runtime's
    comparison of a string with [0], and [flatten] of the [flat] package. *)
Record Runtime : Type := {
  JSON_parse : string -> option value;
  string_gt0 : string -> bool;
  flatten : value -> value
}.

(** An entry of [resource.command], and the [Resource] a view is given. *)
Record Command : Type := {
  command : string;
  arguments : value
}.

Record Resource : Type := {
  columns : list value;
  resource_command : option (list Command);   (* [command], optional *)
  name : string
}.

(** ** The fields of [ResourceviewComponent] *)

(** [rowData$]: the constructor's [new Observable], or [from(array)]. *)
Inductive Observable : Type :=
| Observable_new
| from (array : value).

Record Component : Type := {
  isLoading : bool;
  isSideBarHidden : bool;
  columnDefs : list value;
  resource : Resource;
  rowData_obs : Observable;          (* [rowData$] *)
  rowData : value;
  selectedapp : value;
  subscription : option nat          (* the token of [eventBus.on(..).subscribe] *)
}.

(** ** The surroundings the methods act on *)

(** The body of a [setTimeout] callback of [initialize]. *)
Inductive Call : Type :=
| executeCommandInCurrentNs (cmd : string) (args : value) (isAsync : bool).

(** An event of the backend as [handleEvent] reads it, [ev.name] and
    [ev.payload], and what a handler of the component can be handed. *)
Record Event : Type := {
  ev_name : string;
  payload : value
}.

Inductive Delivery : Type :=
| Result (ev : Event)                (* to [handleEvent] *)
| Lifecycle (data : string).         (* to the subscriber of [ngOnInit] *)

Record World : Type := {
  this : Component;
  console : list string;             (* [console.error] lines, oldest first *)
  timers : list (Z * Call);          (* [setTimeout(f, delay)], in call order *)
  aggrid : option value;             (* the rows of the grid; [None] while
                                        the [@ViewChild] is unresolved *)
  listeners : list (string * nat);   (* [beService]: (channel, listener) *)
  eventBus : list (string * nat * nat);
                                     (* (key, subscription token, subscriber) *)
  delivered : list Delivery          (* what the handlers of [this] were given *)
}.

Definition with_this (c : Component) (w : World) : World :=
  {| this := c; console := console w; timers := timers w; aggrid := aggrid w;
     listeners := listeners w; eventBus := eventBus w;
     delivered := delivered w |}.

(** ** Statements with effects and exceptions

    A statement maps a world to its outcome and the world it leaves; a thrown
    exception keeps what was done before it. *)
Definition M (A : Type) : Type := World -> result A * World.

Definition ret {A} (a : A) : M A := fun w => (Ok a, w).

Definition throw {A} (e : exn) : M A := fun w => (Throw e, w).

Definition seq {A B} (c : M A) (k : A -> M B) : M B :=
  fun w => match c w with
           | (Ok a, w') => k a w'
           | (Throw e, w') => (Throw e, w')
           end.

Definition try_catch {A} (c : M A) (handler : exn -> M A) : M A :=
  fun w => match c w with
           | (Ok a, w') => (Ok a, w')
           | (Throw e, w') => handler e w'
           end.

Definition lift {A} (r : result A) : M A := fun w => (r, w).

Definition modify (f : World -> World) : M unit := fun w => (Ok tt, f w).

Declare Scope stmt_scope.
Delimit Scope stmt_scope with stmt.
Notation "x <- c ;; k" := (seq c (fun x => k))
  (at level 61, c at next level, right associativity) : stmt_scope.
Notation "c ;; k" := (seq c (fun _ => k))
  (at level 61, right associativity) : stmt_scope.

Local Open Scope stmt_scope.

Section ResourceviewComponent.

Variable beService : TauriAdapter.
Variable runtime : Runtime.

(** The identity of the component ([this]) as a listener. *)
Variable me : nat.

(** ** Library calls *)

(** [_.get(object, 'key')]: a property read that yields [undefined] where
    the plain read throws. *)
Definition lodash_get (object : value) (path : string) : value :=
  match get object path with
  | Ok v => v
  | Throw _ => VUndefined
  end.

(** [JSON.parse(v)]: the argument is converted to a string first. *)
Definition JSON_parse_value (v : value) : result value :=
  match JSON_parse runtime (ToString v) with
  | Some r => Ok r
  | None => Throw SyntaxError
  end.

Definition console_error (line : string) : M unit :=
  modify (fun w =>
    {| this := this w; console := console w ++ [line]; timers := timers w;
       aggrid := aggrid w; listeners := listeners w; eventBus := eventBus w;
       delivered := delivered w |}).

Definition setTimeout (f : Call) (delay : Z) : M unit :=
  modify (fun w =>
    {| this := this w; console := console w; timers := timers w ++ [(delay, f)];
       aggrid := aggrid w; listeners := listeners w; eventBus := eventBus w;
       delivered := delivered w |}).

Definition update_this (f : Component -> Component) : M unit :=
  modify (fun w => with_this (f (this w)) w).

(** ** [handleEvent], lines 125-172 *)

(** Lines 149-154: the body of the item loop before [flat] is set.
    [item.spec.containers[0].resources.usage = metric.containers[0].usage]
    reads the holder of [usage], then the right-hand side, then assigns; the
    new [resources] is threaded back into the item. *)
Definition merge_usage (mmap : Map) (item : value) : result value :=
  let! spec := get item "spec" in
  let! containers := get spec "containers" in
  let! nonempty :=
    (if truthy containers
     then let! len := get containers "length" in Ok (gt0 (string_gt0 runtime) len)
     else Ok false) in
  if nonempty : bool then
    let! metadata := get item "metadata" in
    let! name := get metadata "name" in
    let metric := map_get mmap name in
    let! usable :=
      (if truthy metric
       then let! mcs := get metric "containers" in
            if truthy mcs
            then let! len := get mcs "length" in
                 Ok (gt0 (string_gt0 runtime) len)
            else Ok false
       else Ok false) in
    if usable : bool then
      let! first := get_index containers 0 in
      let! resources := get first "resources" in
      let! mcs := get metric "containers" in
      let! mfirst := get_index mcs 0 in
      let! usage := get mfirst "usage" in
      let! resources' := set resources "usage" usage in
      Ok (put item "spec"
            (put spec "containers"
               (put_index containers 0 (put first "resources" resources'))))
    else Ok item
  else Ok item.

(** Lines 148-156: the callback of [results.items.forEach]. *)
Definition each_item (mmap : Map) (item : value) : result value :=
  let! item := merge_usage mmap item in
  set item "flat" (flatten runtime item).

(** Lines 142-144: [metrics.items.forEach(m => mmap.set(m.metadata.name, m))]. *)
Fixpoint set_metrics (mmap : Map) (ms : list value) : result Map :=
  match ms with
  | [] => Ok mmap
  | m :: ms' =>
      let! metadata := get m "metadata" in
      let! name := get metadata "name" in
      set_metrics (map_set mmap name m) ms'
  end.

(** Lines 139-145: the payload that has no [items] but [resource] and
    [metrics]; returns [results] and [mmap] as the block leaves them.  Once
    [results.items] was read without an exception, the reads of
    [results.resource] and [results.metrics] cannot throw, so the order of
    [&&] does not show. *)
Definition join_shape (results : value) (mmap : Map) : result (value * Map) :=
  let! items := get results "items" in
  let! resource := get results "resource" in
  let! metrics := get results "metrics" in
  if negb (truthy items) && truthy resource && truthy metrics then
    let! parsed := JSON_parse_value resource in
    let! items := get parsed "items" in
    let! results := set results "items" items in
    let! metrics := get results "metrics" in
    let! metrics := JSON_parse_value metrics in
    let! mitems := get metrics "items" in
    let! ms := elements mitems in
    let! mmap := set_metrics mmap ms in
    Ok (results, mmap)
  else Ok (results, mmap).

(** The array [a] after its elements were rewritten to [l]. *)
Definition with_elements (a : value) (l : list value) : value :=
  match a with
  | VArr _ ps => VArr l ps
  | _ => a
  end.

(** Lines 158-163: the callback given to [ngZone.run]. *)
Definition show_items (items : value) (c : Component) : Component :=
  {| isLoading := false;
     isSideBarHidden := isSideBarHidden c;
     columnDefs := columnDefs c;
     resource := resource c;
     rowData_obs := from items;
     rowData := items;
     selectedapp := selectedapp c;
     subscription := subscription c |}.

Definition handleEvent (ev : Event) : M unit :=
  let evname := ev_name ev in
  let payload := payload ev in
  results <-
    try_catch (lift (JSON_parse_value (lodash_get payload "data")))
      (fun e => console_error "Failed to parse payload" ;; ret VUndefined) ;;
  if String.eqb evname (app_command_result beService) then
    let cmd := lodash_get payload "command" in
    let mmap := Map_new in
    rm <- lift (join_shape results mmap) ;;
    let (results, mmap) := rm : value * Map in
    items <- lift (get results "items") ;;
    if truthy items then
      l <- lift (elements items) ;;
      l <- lift (forEach (each_item mmap) l) ;;
      let items := with_elements items l in
      update_this (show_items items)
    else ret tt
  else ret tt.

(** ** [initialize], lines 104-112 *)

(** The loop of [forEach] with the local [delay] it advances. *)
Fixpoint initialize_loop (cmds : list Command) (delay : Z) : M unit :=
  match cmds with
  | [] => ret tt
  | cmd :: cmds' =>
      setTimeout
        (executeCommandInCurrentNs (command cmd) (arguments cmd) true) delay ;;
      initialize_loop cmds' (delay + 1000)
  end.

Definition initialize : M unit :=
  fun w =>
    let delay := 0 in
    match resource_command (resource (this w)) with
    | Some cmds => initialize_loop cmds delay w
    | None => ret tt w
    end.

(** ** [clearTable], lines 114-119

    [this.aggrid] is a [@ViewChild] without initialiser: until the framework
    has resolved it, the read of [this.aggrid.api] throws, after [rowData$]
    was assigned. *)
Definition clearTable : M unit :=
  update_this (fun c =>
    {| isLoading := isLoading c;
       isSideBarHidden := isSideBarHidden c;
       columnDefs := columnDefs c;
       resource := resource c;
       rowData_obs := from (VArr [] []);
       rowData := rowData c;
       selectedapp := selectedapp c;
       subscription := subscription c |}) ;;
  fun w =>
    match aggrid w with
    | Some _ =>
        (Ok tt,
         {| this := this w; console := console w; timers := timers w;
            aggrid := Some (VArr [] []);
            listeners := listeners w; eventBus := eventBus w;
            delivered := delivered w |})
    | None => (Throw TypeError, w)
    end.

Definition set_isLoading (b : bool) : M unit :=
  update_this (fun c =>
    {| isLoading := b;
       isSideBarHidden := isSideBarHidden c;
       columnDefs := columnDefs c;
       resource := resource c;
       rowData_obs := rowData_obs c;
       rowData := rowData c;
       selectedapp := selectedapp c;
       subscription := subscription c |}).

Definition set_isSideBarHidden (b : bool) : M unit :=
  update_this (fun c =>
    {| isLoading := isLoading c;
       isSideBarHidden := b;
       columnDefs := columnDefs c;
       resource := resource c;
       rowData_obs := rowData_obs c;
       rowData := rowData c;
       selectedapp := selectedapp c;
       subscription := subscription c |}).

(** ** The subscriber of [ngOnInit], lines 88-101: [meta.data] is the signal *)
Definition on_app_event (data : string) : M unit :=
  if String.eqb data (cluster_changed beService) then
    set_isLoading true ;;
    clearTable
  else if String.eqb data (ns_changed beService) then
    set_isLoading true ;;
    clearTable ;;
    initialize
  else if String.eqb data (escape_hit beService) then
    fun w =>
      if negb (isSideBarHidden (this w)) then set_isSideBarHidden true w
      else ret tt w
  else ret tt.

(** ** [onSelect], lines 174-196

    [app] is the row-clicked event of the grid; the block at lines 183-195
    holds comments only. *)
Definition set_selectedapp (v : value) : M unit :=
  update_this (fun c =>
    {| isLoading := isLoading c;
       isSideBarHidden := isSideBarHidden c;
       columnDefs := columnDefs c;
       resource := resource c;
       rowData_obs := rowData_obs c;
       rowData := rowData c;
       selectedapp := v;
       subscription := subscription c |}).

Definition onSelect (app : value) : M unit :=
  data <- lift (get app "data") ;;
  set_selectedapp data ;;
  fun w => set_isSideBarHidden (negb (isSideBarHidden (this w))) w.

(** ** [getAttrValue], lines 207-213

    [this.selectedapp?.flat[resource_field]] behind [if (this.selectedapp)]:
    the selection is not [null] there, so [?.] reads as [.].  The reads are
    those of [get]: exact for a selection that is no array (an array inherits
    a method [flat]) and for a field that is a property of [flat] itself or no
    name every object inherits. *)
Definition getAttrValue (resource_field : string) (w : World) : result value :=
  if truthy (selectedapp (this w)) then
    let! flat := get (selectedapp (this w)) "flat" in
    get flat resource_field
  else Ok (VStr "N/A").

(** ** [onAction], lines 202-205

    [resource.actions] is an optional list of named callbacks; its type is
    declared outside the component's file, so the list enters as a parameter
    and a callback as the name it is known by.  The method makes at most one
    call, returned here with its argument. *)
Record Action : Type := {
  action_name : string;
  callback : string
}.

Definition onAction (actions : option (list Action)) (name : string)
  (w : World) : option (string * value) :=
  let action :=
    match actions with
    | Some l => hd_error (filter (fun ac => String.eqb (action_name ac) name) l)
    | None => None
    end in
  match action with
  | Some ac => Some (callback ac, selectedapp (this w))
  | None => None
  end.

(** ** Registration with the backend service and the event bus *)

(** Modelled from the spec: [TauriAdapter.registerListener] is declared
    outside the component's file.  Following section 4.4, a registration adds
    the listener to the list of the channel. *)
Definition registerListener (channel : string) (listener : nat) : M unit :=
  modify (fun w =>
    {| this := this w; console := console w; timers := timers w;
       aggrid := aggrid w;
       listeners := listeners w ++ [(channel, listener)];
       eventBus := eventBus w; delivered := delivered w |}).

(** Modelled from the spec: [TauriAdapter.unRegisterListener], also outside
    the component's file, removes the registrations of a listener; following
    section 4.4, doing so twice is a no-op. *)
Definition unRegisterListener (listener : nat) : M unit :=
  modify (fun w =>
    {| this := this w; console := console w; timers := timers w;
       aggrid := aggrid w;
       listeners :=
         filter (fun r => negb (Nat.eqb (snd r) listener)) (listeners w);
       eventBus := eventBus w; delivered := delivered w |}).

Definition token_of (s : string * nat * nat) : nat := snd (fst s).

Definition subscriber_of (s : string * nat * nat) : nat := snd s.

(** [eventBus.on(key).subscribe(callback)] of ng-event-bus: a new
    subscription, named by a token no subscription holds yet. *)
Definition eventBus_subscribe (key : string) (subscriber : nat) : M nat :=
  fun w =>
    let token := S (list_max (List.map token_of (eventBus w))) in
    (Ok token,
     {| this := this w; console := console w; timers := timers w;
        aggrid := aggrid w; listeners := listeners w;
        eventBus := eventBus w ++ [(key, token, subscriber)];
        delivered := delivered w |}).

(** [subscription.unsubscribe()]. *)
Definition unsubscribe (token : nat) : M unit :=
  modify (fun w =>
    {| this := this w; console := console w; timers := timers w;
       aggrid := aggrid w; listeners := listeners w;
       eventBus :=
         filter (fun s => negb (Nat.eqb (token_of s) token)) (eventBus w);
       delivered := delivered w |}).

(** ** The life cycle: constructor, [ngOnInit], [ngOnDestroy] *)

(** Lines 32-75: the field initialisers, then the constructor's body. *)
Definition constructor : M unit :=
  update_this (fun _ =>
    {| isLoading := true;
       isSideBarHidden := true;
       columnDefs := [];
       resource := {| columns := []; resource_command := Some [];
                     name := EmptyString |};
       rowData_obs := Observable_new;
       rowData := VArr [] [];
       selectedapp := VUndefined;
       subscription := None |}) ;;
  registerListener (app_command_result beService) me.

(** Lines 82-102. *)
Definition ngOnInit : M unit :=
  update_this (fun c =>
    {| isLoading := isLoading c;
       isSideBarHidden := isSideBarHidden c;
       columnDefs := columns (resource c);
       resource := resource c;
       rowData_obs := rowData_obs c;
       rowData := rowData c;
       selectedapp := selectedapp c;
       subscription := subscription c |}) ;;
  initialize ;;
  token <- eventBus_subscribe (app_events beService) me ;;
  update_this (fun c =>
    {| isLoading := isLoading c;
       isSideBarHidden := isSideBarHidden c;
       columnDefs := columnDefs c;
       resource := resource c;
       rowData_obs := rowData_obs c;
       rowData := rowData c;
       selectedapp := selectedapp c;
       subscription := Some token |}).

(** Lines 77-80. *)
Definition ngOnDestroy : M unit :=
  unRegisterListener me ;;
  fun w =>
    match subscription (this w) with
    | Some token => unsubscribe token w
    | None => ret tt w
    end.

(** The [@Input() resource] the framework assigns between the constructor
    and [ngOnInit]. *)
Definition set_resource (r : Resource) : M unit :=
  update_this (fun c =>
    {| isLoading := isLoading c;
       isSideBarHidden := isSideBarHidden c;
       columnDefs := columnDefs c;
       resource := r;
       rowData_obs := rowData_obs c;
       rowData := rowData c;
       selectedapp := selectedapp c;
       subscription := subscription c |}).

(** ** Delivery *)

Definition record_delivery (d : Delivery) : M unit :=
  modify (fun w =>
    {| this := this w; console := console w; timers := timers w;
       aggrid := aggrid w; listeners := listeners w; eventBus := eventBus w;
       delivered := delivered w ++ [d] |}).

(** A handler run by a dispatcher: what it throws stays with it. *)
Definition isolated (handler : M unit) : World -> World :=
  fun w => snd (handler w).

(** Modelled from the spec: the dispatch loop of the backend service is
    outside the component's file.  Following section 4.4, an event goes to
    every listener registered for its channel at the time, in registration
    order, and a listener that throws does not stop the others.  Only the
    deliveries to this component are followed. *)
Definition publish_result (ev : Event) (w : World) : World :=
  fold_left
    (fun w r =>
       if String.eqb (fst r) (ev_name ev) && Nat.eqb (snd r) me
       then isolated (record_delivery (Result ev) ;; handleEvent ev) w
       else w)
    (listeners w) w.

(** Modelled from the spec: the dispatch loop of the event bus, which is
    outside the component's file, under the same rules of section 4.4: the
    signal goes to every subscription of its key. *)
Definition publish_lifecycle (key data : string) (w : World) : World :=
  fold_left
    (fun w s =>
       if String.eqb (fst (fst s)) key && Nat.eqb (subscriber_of s) me
       then isolated (record_delivery (Lifecycle data) ;; on_app_event data) w
       else w)
    (eventBus w) w.

(** What the surroundings can publish, and a run of publications. *)
Inductive Emission : Type :=
| backend_result (ev : Event)
| app_signal (key data : string).

Definition emit (e : Emission) (w : World) : World :=
  match e with
  | backend_result ev => publish_result ev w
  | app_signal key data => publish_lifecycle key data w
  end.

Definition emit_all (es : list Emission) (w : World) : World :=
  fold_left (fun w e => emit e w) es w.

(** The component from its construction to its use: the constructor, the
    [resource] input, [ngOnInit]. *)
Definition mount (r : Resource) (w : World) : World :=
  snd ((constructor ;; set_resource r ;; ngOnInit) w).

End ResourceviewComponent.

(* ===================================================================== *)
(** * A reference runtime *)
(* ===================================================================== *)

(** The statements below hold for every [Runtime].  To run the handlers on
    concrete events, this section gives one: a parser for the JSON texts whose
    numbers are integer numerals and whose strings are ASCII without [\u]
    escapes, the comparison with [0] of a string that is an integer numeral,
    and [flatten] as the [flat] package defines it (default options). *)
Module Reference.

Definition is_ws (c : ascii) : bool :=
  let n := nat_of_ascii c in
  Nat.eqb n 32 || Nat.eqb n 9 || Nat.eqb n 10 || Nat.eqb n 13.

Fixpoint skip_ws (s : string) : string :=
  match s with
  | String c r => if is_ws c then skip_ws r else s
  | EmptyString => s
  end.

Definition digit_of (c : ascii) : option Z :=
  let n := nat_of_ascii c in
  if Nat.leb 48 n && Nat.leb n 57 then Some (Z.of_nat (n - 48)) else None.

Fixpoint parse_digits (s : string) (acc : Z) : Z * string :=
  match s with
  | String c r =>
      match digit_of c with
      | Some d => parse_digits r (10 * acc + d)
      | None => (acc, s)
      end
  | EmptyString => (acc, s)
  end.

(** An integer numeral: no leading zero, no fraction and no exponent. *)
Definition parse_nat_numeral (s : string) : option (Z * string) :=
  match s with
  | String c r =>
      match digit_of c with
      | Some 0 =>
          match r with
          | String c' _ =>
              match digit_of c' with
              | Some _ => None
              | None => Some (0, r)
              end
          | EmptyString => Some (0, r)
          end
      | Some d => Some (parse_digits r d)
      | None => None
      end
  | EmptyString => None
  end.

Definition ends_numeral (s : string) : bool :=
  match s with
  | String c _ =>
      let n := nat_of_ascii c in
      negb (Nat.eqb n 46 || Nat.eqb n 101 || Nat.eqb n 69)   (* . e E *)
  | EmptyString => true
  end.

Definition parse_number (s : string) : option (value * string) :=
  let signed :=
    match s with
    | String "-" r =>
        option_map (fun p => (- fst p, snd p)) (parse_nat_numeral r)
    | _ => parse_nat_numeral s
    end in
  match signed with
  | Some (n, r) => if ends_numeral r then Some (VNum n, r) else None
  | None => None
  end.

Definition quote : ascii := ascii_of_nat 34.
Definition backslash : ascii := ascii_of_nat 92.

(** The characters of a string literal after its opening quote. *)
Fixpoint parse_string (s : string) : option (string * string) :=
  match s with
  | EmptyString => None
  | String c r =>
      if Ascii.eqb c quote then Some (EmptyString, r)
      else if Ascii.eqb c backslash then
        match r with
        | String e r' =>
            let unescaped :=
              if Ascii.eqb e quote then Some quote
              else if Ascii.eqb e backslash then Some backslash
              else if Ascii.eqb e "/" then Some "/"%char
              else if Ascii.eqb e "b" then Some (ascii_of_nat 8)
              else if Ascii.eqb e "f" then Some (ascii_of_nat 12)
              else if Ascii.eqb e "n" then Some (ascii_of_nat 10)
              else if Ascii.eqb e "r" then Some (ascii_of_nat 13)
              else if Ascii.eqb e "t" then Some (ascii_of_nat 9)
              else None in
            match unescaped, parse_string r' with
            | Some c', Some (str, rest) => Some (String c' str, rest)
            | _, _ => None
            end
        | EmptyString => None
        end
      else if Nat.ltb (nat_of_ascii c) 32 then None
      else
        match parse_string r with
        | Some (str, rest) => Some (String c str, rest)
        | None => None
        end
  end.

Definition strip_prefix (p s : string) : option string :=
  if String.prefix p s
  then Some (String.substring (String.length p) (String.length s - String.length p) s)
  else None.

Fixpoint parse_value (fuel : nat) (s : string) : option (value * string) :=
  match fuel with
  | O => None
  | S fuel =>
      match skip_ws s with
      | String "{" r =>
          match skip_ws r with
          | String "}" r' => Some (VObj [], r')
          | _ => parse_members fuel r []
          end
      | String "[" r =>
          match skip_ws r with
          | String "]" r' => Some (VArr [] [], r')
          | _ => parse_elements fuel r []
          end
      | String c r as s' =>
          if Ascii.eqb c quote then
            option_map (fun p => (VStr (fst p), snd p)) (parse_string r)
          else
            match strip_prefix "true" s', strip_prefix "false" s',
                  strip_prefix "null" s' with
            | Some r', _, _ => Some (VBool true, r')
            | _, Some r', _ => Some (VBool false, r')
            | _, _, Some r' => Some (VNull, r')
            | _, _, _ => parse_number s'
            end
      | EmptyString => None
      end
  end
with parse_elements (fuel : nat) (s : string) (acc : list value)
  : option (value * string) :=
  match fuel with
  | O => None
  | S fuel =>
      match parse_value fuel s with
      | Some (v, r) =>
          match skip_ws r with
          | String "," r' => parse_elements fuel r' (acc ++ [v])
          | String "]" r' => Some (VArr (acc ++ [v]) [], r')
          | _ => None
          end
      | None => None
      end
  end
with parse_members (fuel : nat) (s : string) (acc : list (string * value))
  : option (value * string) :=
  match fuel with
  | O => None
  | S fuel =>
      match skip_ws s with
      | String c r =>
          if Ascii.eqb c quote then
            match parse_string r with
            | Some (key, r) =>
                match skip_ws r with
                | String ":" r =>
                    match parse_value fuel r with
                    | Some (v, r) =>
                        match skip_ws r with
                        | String "," r' =>
                            parse_members fuel r' (assoc_set key v acc)
                        | String "}" r' => Some (VObj (assoc_set key v acc), r')
                        | _ => None
                        end
                    | None => None
                    end
                | _ => None
                end
            | None => None
            end
          else None
      | EmptyString => None
      end
  end.

Definition parse (s : string) : option value :=
  match parse_value (2 * String.length s + 2) s with
  | Some (v, r) =>
      match skip_ws r with
      | EmptyString => Some v
      | _ => None
      end
  | None => None
  end.

(** [ToNumber(s) > 0] for a string that is empty or an integer numeral
    between white space. *)
Definition positive (s : string) : bool :=
  match skip_ws s with
  | String "+" r =>
      match parse_digits r 0 with
      | (n, r') => match skip_ws r' with EmptyString => 0 <? n | _ => false end
      end
  | r =>
      match parse_digits r 0 with
      | (n, r') => match skip_ws r' with EmptyString => 0 <? n | _ => false end
      end
  end.

(** [flatten(target)] of the [flat] package: the leaves of [target] under
    their dotted paths.  A value with no key of its own is a leaf. *)
Definition has_keys (v : value) : bool :=
  match v with
  | VObj (_ :: _) => true
  | VArr (_ :: _) _ => true
  | VArr [] (_ :: _) => true
  | _ => false
  end.

Definition new_key (prev : option string) (key : string) : string :=
  match prev with
  | Some p => if String.eqb p EmptyString then key else p ++ "." ++ key
  | None => key
  end.

Fixpoint step (prev : option string) (object : value)
  (output : list (string * value)) {struct object} : list (string * value) :=
  let members :=
    fix members (ps : list (string * value)) (output : list (string * value))
      : list (string * value) :=
      match ps with
      | [] => output
      | (key, v) :: ps' =>
          let newKey := new_key prev key in
          members ps'
            (if has_keys v then step (Some newKey) v output
             else assoc_set newKey v output)
      end in
  match object with
  | VObj ps => members ps output
  | VArr l ps =>
      members ps
        ((fix elems (i : nat) (l : list value) (output : list (string * value))
            : list (string * value) :=
            match l with
            | [] => output
            | v :: l' =>
                let newKey := new_key prev (string_of_index i) in
                elems (S i) l'
                  (if has_keys v then step (Some newKey) v output
                   else assoc_set newKey v output)
            end) O l output)
  | _ => output
  end.

Definition flat (target : value) : value := VObj (step None target []).

Definition runtime : Runtime :=
  {| JSON_parse := parse;
     string_gt0 := positive;
     flatten := flat |}.

(** JSON texts are written with apostrophes for the quotation marks. *)
Fixpoint text (s : string) : string :=
  match s with
  | EmptyString => EmptyString
  | String c r => String (if Ascii.eqb c "'" then quote else c) (text r)
  end.

(** The JSON string literal that denotes [s]: [s] between quotation marks,
    with a backslash before each quotation mark and backslash in it. *)
Fixpoint escaped (s : string) : string :=
  match s with
  | EmptyString => EmptyString
  | String c r =>
      if Ascii.eqb c quote || Ascii.eqb c backslash
      then String backslash (String c (escaped r))
      else String c (escaped r)
  end.

Definition literal (s : string) : string :=
  String quote (escaped s ++ String quote EmptyString).

End Reference.

(* ===================================================================== *)
(** * Sample data *)
(* ===================================================================== *)

(** A backend service, a pod view with three commands and a world in which
    the view was constructed and given its resource, for running the methods
    on concrete input. *)
Module Sample.

Definition beService : TauriAdapter :=
  {| app_command_result := "app::command_result";
     app_events := "app::events";
     cluster_changed := "cluster_changed";
     ns_changed := "ns_changed";
     escape_hit := "escape_hit" |}.

Definition pod_view : Resource :=
  {| columns := [];
     resource_command :=
       Some [ {| command := "get_pods"; arguments := VObj [] |};
              {| command := "get_metrics_pods"; arguments := VObj [] |};
              {| command := "get_events"; arguments := VObj [] |} ];
     name := "pods" |}.

Definition component : Component :=
  {| isLoading := true;
     isSideBarHidden := true;
     columnDefs := [];
     resource := pod_view;
     rowData_obs := Observable_new;
     rowData := VArr [] [];
     selectedapp := VUndefined;
     subscription := None |}.

Definition world : World :=
  {| this := component;
     console := [];
     timers := [];
     aggrid := Some (VArr [] []);
     listeners := [("app::command_result", 7%nat)];
     eventBus := [];
     delivered := [] |}.

(** Events of the result channel.  [malformed] carries data that is not
    JSON; [status] parses to an object with neither [items] nor [resource]
    and [metrics]; [pods] lists two pods; [pods_with_metrics] carries the
    same list with the metrics of the first pod only. *)
Definition event (data : string) : Event :=
  {| ev_name := "app::command_result";
     payload := VObj [("command", VStr "get_pods"); ("data", VStr data)] |}.

Definition malformed : Event := event "not json".

Definition status : Event := event (Reference.text "{'kind':'Status'}").

Definition pod_list : string :=
  "{'items':[" ++
  "{'metadata':{'name':'web'},'spec':{'containers':[" ++
     "{'name':'nginx','resources':{'limits':{'cpu':'1'}}}," ++
     "{'name':'sidecar','resources':{}}]}}," ++
  "{'metadata':{'name':'db'},'spec':{'containers':[" ++
     "{'name':'postgres','resources':{}}]}}]}".

Definition metrics_list : string :=
  "{'items':[" ++
  "{'metadata':{'name':'web'},'containers':[" ++
     "{'name':'nginx','usage':{'cpu':'3m','memory':'9Mi'}}," ++
     "{'name':'sidecar','usage':{'cpu':'1m','memory':'2Mi'}}]}," ++
  "{'metadata':{'name':'db'},'containers':[]}]}".

Definition pods : Event := event (Reference.text pod_list).

Definition pods_with_metrics : Event :=
  {| ev_name := "app::command_result";
     payload :=
       VObj [("command", VStr "get_pods");
             ("data",
              VStr (Reference.text "{'resource':" ++
                    Reference.literal (Reference.text pod_list) ++
                    Reference.text ",'metrics':" ++
                    Reference.literal (Reference.text metrics_list) ++ "}"))] |}.

(** The two pods of [pod_list] and the metrics of the first, as parsed. *)
Definition web : value :=
  VObj [("metadata", VObj [("name", VStr "web")]);
        ("spec",
         VObj [("containers",
                VArr [VObj [("name", VStr "nginx");
                            ("resources",
                             VObj [("limits", VObj [("cpu", VStr "1")])])];
                      VObj [("name", VStr "sidecar"); ("resources", VObj [])]]
                     [])])].

Definition db : value :=
  VObj [("metadata", VObj [("name", VStr "db")]);
        ("spec",
         VObj [("containers",
                VArr [VObj [("name", VStr "postgres"); ("resources", VObj [])]]
                     [])])].

Definition web_metrics : value :=
  VObj [("metadata", VObj [("name", VStr "web")]);
        ("containers",
         VArr [VObj [("name", VStr "nginx");
                     ("usage", VObj [("cpu", VStr "3m");
                                     ("memory", VStr "9Mi")])];
               VObj [("name", VStr "sidecar");
                     ("usage", VObj [("cpu", VStr "1m");
                                     ("memory", VStr "2Mi")])]]
              [])].

Definition db_metrics : value :=
  VObj [("metadata", VObj [("name", VStr "db")]); ("containers", VArr [] [])].

Definition mmap : Map := [(VStr "web", web_metrics); (VStr "db", db_metrics)].

(** What the reference runtime makes of an event's data, and what the
    shape test of the handler leaves of it. *)
Definition parsed (ev : Event) : value :=
  match JSON_parse_value Reference.runtime (lodash_get (payload ev) "data") with
  | Ok v => v
  | Throw _ => VUndefined
  end.


(** A world before the view exists, with another listener and another
    subscriber in it; the view will be listener 7. *)
Definition before : World :=
  {| this := component;
     console := [];
     timers := [];
     aggrid := Some (VArr [] []);
     listeners := [("app::command_result", 3%nat)];
     eventBus := [("app::events", 1%nat, 3%nat)];
     delivered := [] |}.

End Sample.

(* ===================================================================== *)
(** * Definitions used in the statements *)
(* ===================================================================== *)

(** The timers a command list asks for when the first one is due at
    [delay]: one per command, 1000 ms apart. *)
Fixpoint scheduled (delay : Z) (cmds : list Command) : list (Z * Call) :=
  match cmds with
  | [] => []
  | cmd :: cmds' =>
      (delay, executeCommandInCurrentNs (command cmd) (arguments cmd) true)
        :: scheduled (delay + 1000) cmds'
  end.

Definition add_timers (ts : list (Z * Call)) (w : World) : World :=
  {| this := this w; console := console w; timers := timers w ++ ts;
     aggrid := aggrid w; listeners := listeners w; eventBus := eventBus w;
     delivered := delivered w |}.

(** The timers [initialize] asks for in a component. *)
Definition initial_timers (c : Component) : list (Z * Call) :=
  match resource_command (resource c) with
  | Some cmds => scheduled 0 cmds
  | None => []
  end.

(** The world after [console.error(line)]. *)
Definition logged (line : string) (w : World) : World :=
  {| this := this w; console := console w ++ [line]; timers := timers w;
     aggrid := aggrid w; listeners := listeners w; eventBus := eventBus w;
     delivered := delivered w |}.

(** Whether [results.k] is there, in the sense of [if (results.k)]. *)
Definition has (results : value) (k : string) : bool :=
  truthy (lodash_get results k).

(** *** Resource items and metrics, as the cluster sends them *)

Definition is_object (v : value) : bool :=
  match v with
  | VObj _ => true
  | _ => false
  end.

(** A list that may be left out: absent, [null], or an array. *)
Definition optional_list (v : value) : option (list value) :=
  match v with
  | VUndefined | VNull => Some []
  | VArr l [] => Some l
  | _ => None
  end.

(** A container of a pod spec: an object with a [resources] object. *)
Definition container (c : value) : bool :=
  is_object c && is_object (lodash_get c "resources").

(** A resource item: an object with a [metadata] object and a [spec] object
    whose [containers], when there, is a list of containers. *)
Definition resource_item (item : value) : bool :=
  is_object item &&
  is_object (lodash_get item "metadata") &&
  is_object (lodash_get item "spec") &&
  match optional_list (lodash_get (lodash_get item "spec") "containers") with
  | Some cs => forallb container cs
  | None => false
  end.

(** A metrics entry: an object whose [containers], when there, is a list of
    objects. *)
Definition metrics_entry (m : value) : bool :=
  is_object m &&
  match optional_list (lodash_get m "containers") with
  | Some cs => forallb is_object cs
  | None => false
  end.

Definition metrics_map (mmap : Map) : bool :=
  forallb (fun entry => metrics_entry (snd entry)) mmap.

(** *** The merge in the words of the specification *)

(** The containers a holder lists ([item.spec] or a metrics entry). *)
Definition containers_of (holder : value) : list value :=
  match lodash_get holder "containers" with
  | VArr l _ => l
  | _ => []
  end.

Definition name_of (v : value) : value :=
  lodash_get (lodash_get v "metadata") "name".

Definition first_container (item : value) : option value :=
  hd_error (containers_of (lodash_get item "spec")).

(** The first container entry of the metrics entry that has the item's
    name, when there is such an entry and it has a container entry. *)
Definition usable_metrics (mmap : Map) (item : value) : option value :=
  hd_error (containers_of (map_get mmap (name_of item))).


(** The item with [usage] written into the resources of its first
    container. *)
Definition attach_usage (item usage : value) : value :=
  let spec := lodash_get item "spec" in
  match lodash_get spec "containers" with
  | VArr (first :: rest) ps =>
      let resources := put (lodash_get first "resources") "usage" usage in
      put item "spec"
        (put spec "containers"
           (VArr (put first "resources" resources :: rest) ps))
  | _ => item
  end.

(** The item the loop leaves for an item it was given, as the merge is
    specified: [usage] attached exactly when the item has a container and
    there are usable metrics for it. *)
Definition merged (mmap : Map) (item : value) : value :=
  match first_container item, usable_metrics mmap item with
  | Some _, Some m0 => attach_usage item (lodash_get m0 "usage")
  | _, _ => item
  end.

(** The row the table gets for an item: the merged item with its [flat]
    field. *)
Definition rendered (rt : Runtime) (mmap : Map) (item : value) : value :=
  let item1 := merged mmap item in
  put item1 "flat" (flatten rt item1).


(** A world that does not know the listener [me] yet: no registration and
    no subscription is its. *)
Definition unknown_to (me : nat) (w : World) : Prop :=
  (forall r, In r (listeners w) -> snd r <> me) /\
  (forall s, In s (eventBus w) -> subscriber_of s <> me).

(** *** A metrics list keyed by name *)

(** A metrics entry with a [metadata] object, from which its name is read. *)
Definition named (m : value) : bool :=
  is_object m && is_object (lodash_get m "metadata").

(** The entry of name [k] in the list [ms]; of several, the last. *)
Fixpoint by_name (ms : list value) (k : value) : option value :=
  match ms with
  | [] => None
  | m :: ms' =>
      match by_name ms' k with
      | Some m' => Some m'
      | None => if same_value_zero k (name_of m) then Some m else None
      end
  end.

(** A map that answers every name with the entry of that name in [ms]. *)
Definition keyed_by_name (mmap : Map) (ms : list value) : Prop :=
  forall k,
    map_get mmap k = match by_name ms k with
                     | Some m => m
                     | None => VUndefined
                     end.

(** The row of an item that came without metrics. *)
Definition unmerged_row (rt : Runtime) (item : value) : value :=
  put item "flat" (flatten rt item).

(** The world [w'] is the world [w] with the table showing [rows]:
    [isLoading] is false, [rowData] is [rows], [rowData$] is [from(rows)],
    and every other field of the component and everything around it is as in
    [w]. *)
Definition shows (rows : value) (w w' : World) : Prop :=
  isLoading (this w') = false /\
  rowData (this w') = rows /\
  rowData_obs (this w') = from rows /\
  isSideBarHidden (this w') = isSideBarHidden (this w) /\
  columnDefs (this w') = columnDefs (this w) /\
  resource (this w') = resource (this w) /\
  selectedapp (this w') = selectedapp (this w) /\
  subscription (this w') = subscription (this w) /\
  (console w', timers w', aggrid w', listeners w', eventBus w', delivered w')
    = (console w, timers w, aggrid w, listeners w, eventBus w, delivered w).

(** The rows the item loop makes of [items] under the metrics map [mmap]:
    [items] must be an array, and each element passes through the callback of
    the loop; an exception of either is the result. *)
Definition table_of (rt : Runtime) (mmap : Map) (items : value)
  : result value :=
  let! l := elements items in
  let! rows := forEach (each_item rt mmap) l in
  Ok (with_elements items rows).

(** A call that came out as [out] from the world [w] has shown the rows
    [r], or has thrown the exception [r] and left [w] as it was. *)
Definition table_update (r : result value) (w : World)
  (out : result unit * World) : Prop :=
  match r with
  | Ok rows => fst out = Ok tt /\ shows rows w (snd out)
  | Throw e => out = (Throw e, w)
  end.

(** The payload of the second shape as it is read: [resource] and [metrics]
    are parsed, the item list is [items] of the first, the metrics list is
    [items] of the second, an array of entries whose [metadata.name] can be
    read.  The first of these steps that throws gives the exception. *)
Definition resource_and_metrics (rt : Runtime) (results : value)
  : result (value * list value) :=
  let! resource := JSON_parse_value rt (lodash_get results "resource") in
  let! items := get resource "items" in
  let! metrics := JSON_parse_value rt (lodash_get results "metrics") in
  let! mitems := get metrics "items" in
  let! ms := elements mitems in
  let! _ := forEach (fun m => let! md := get m "metadata" in get md "name") ms in
  Ok (items, ms).

(** The first container entry of the entry that the metrics list [ms] has
    for the name of [item], when there is such an entry and it has a
    container entry. *)
Definition usable_in (ms : list value) (item : value) : option value :=
  hd_error
    (containers_of
       match by_name ms (name_of item) with
       | Some m => m
       | None => VUndefined
       end).

(** C8 as it is claimed, for an item of the event and the world [w'] the
    handler leaves: loading has ended and the item, with its [flat] field,
    is a row of the table. *)
Definition rendered_unmerged (rt : Runtime) (item : value) (w' : World)
  : Prop :=
  isLoading (this w') = false /\
  exists rows ps,
    rowData (this w') = VArr rows ps /\
    In (put item "flat" (flatten rt item)) rows.

(** Two worlds with the same registrations, subscriptions, record of
    deliveries and subscription token of the component. *)
Definition same_wiring (w w' : World) : Prop :=
  listeners w' = listeners w /\
  eventBus w' = eventBus w /\
  delivered w' = delivered w /\
  subscription (this w') = subscription (this w).

(** The same without the record of deliveries. *)
Definition same_registry (w w' : World) : Prop :=
  listeners w' = listeners w /\
  eventBus w' = eventBus w /\
  subscription (this w') = subscription (this w).

(** Two components that differ at most in [isSideBarHidden]. *)
Definition same_but_sidebar (c c' : Component) : Prop :=
  isLoading c' = isLoading c /\
  columnDefs c' = columnDefs c /\
  resource c' = resource c /\
  rowData_obs c' = rowData_obs c /\
  rowData c' = rowData c /\
  selectedapp c' = selectedapp c /\
  subscription c' = subscription c.

(** Two components that differ at most in [isLoading] and [rowData$]. *)
Definition same_but_table (c c' : Component) : Prop :=
  isSideBarHidden c' = isSideBarHidden c /\
  columnDefs c' = columnDefs c /\
  resource c' = resource c /\
  rowData c' = rowData c /\
  selectedapp c' = selectedapp c /\
  subscription c' = subscription c.

(** C4 as it is claimed, for the signal [data]: the handler marks the view
    as loading, clears the rows it shows and schedules the initial commands
    again. *)
Definition invalidates_and_retriggers
  (be : TauriAdapter) (data : string) (w : World) : Prop :=
  let w' := snd (on_app_event be data w) in
  isLoading (this w') = true /\
  rowData_obs (this w') = from (VArr [] []) /\
  aggrid w' = Some (VArr [] []) /\
  timers w' = (timers w ++ initial_timers (this w))%list.

(** *** Runs of the component *)

(** A call of one of the methods the framework, the grid or the backend
    service makes on a mounted component. *)
Inductive Step : Type :=
| calls_handleEvent (ev : Event)
| calls_subscriber (data : string)
| calls_onSelect (app : value)
| calls_initialize.

(** The world a call leaves, whether it returned or threw. *)
Definition step (be : TauriAdapter) (rt : Runtime) (s : Step) (w : World)
  : World :=
  match s with
  | calls_handleEvent ev => snd (handleEvent be rt ev w)
  | calls_subscriber data => snd (on_app_event be data w)
  | calls_onSelect app => snd (onSelect app w)
  | calls_initialize => snd (initialize w)
  end.

Definition run (be : TauriAdapter) (rt : Runtime) (ss : list Step) (w : World)
  : World :=
  fold_left (fun w s => step be rt s w) ss w.

Definition is_handleEvent (s : Step) : bool :=
  match s with
  | calls_handleEvent _ => true
  | _ => false
  end.

Definition is_onSelect (s : Step) : bool :=
  match s with
  | calls_onSelect _ => true
  | _ => false
  end.

(** A row as the item loop leaves it: some item with its flattened form in
    the field [flat]. *)
Definition flattened_row (rt : Runtime) (row : value) : Prop :=
  exists item, set item "flat" (flatten rt item) = Ok row.

(** Two components that differ at most in the sidebar and the selection. *)
Definition same_but_selection (c c' : Component) : Prop :=
  isLoading c' = isLoading c /\
  columnDefs c' = columnDefs c /\
  resource c' = resource c /\
  rowData_obs c' = rowData_obs c /\
  rowData c' = rowData c /\
  subscription c' = subscription c.

(** The component after a click on a row with the data [data]. *)
Definition selected (data : value) (c : Component) : Component :=
  {| isLoading := isLoading c;
     isSideBarHidden := negb (isSideBarHidden c);
     columnDefs := columnDefs c;
     resource := resource c;
     rowData_obs := rowData_obs c;
     rowData := rowData c;
     selectedapp := data;
     subscription := subscription c |}.

(** The rows of the table are all of that kind. *)
Definition rows_flattened (rt : Runtime) (c : Component) : Prop :=
  exists rows ps,
    rowData c = VArr rows ps /\ Forall (flattened_row rt) rows.

(** What [handleEvent] may do to a component: nothing, or show rows. *)
Definition updated (upd : option value) (c : Component) : Component :=
  match upd with
  | Some rows => show_items rows c
  | None => c
  end.

(** An item whose [spec] cannot be read from: [item.spec.containers]
    throws. *)
Definition lacks_spec (item : value) : bool :=
  match get item "spec" with
  | Ok VUndefined | Ok VNull | Throw _ => true
  | Ok _ => false
  end.

(** Further events of the result channel and a selection, for running the
    methods on concrete input. *)
Module Scenario.

(** [resource] is no JSON text. *)
Definition broken_resource : Event :=
  Sample.event
    (Reference.text "{'resource':'oops','metrics':'{\'items\':[]}'}").

(** The metrics parse to an object without [items]. *)
Definition metrics_without_items : Event :=
  Sample.event
    (Reference.text "{'resource':'{\'items\':[]}','metrics':'{}'}").

(** The second item has no [spec]. *)
Definition item_without_spec : Event :=
  Sample.event
    (Reference.text
       ("{'items':[{'metadata':{'name':'web'},'spec':{}}," ++
        "{'metadata':{'name':'job'}}]}")).

(** The world after the sample view was mounted and the list with metrics
    arrived, and the click on its first row. *)
Definition shown : World :=
  snd (handleEvent Sample.beService Reference.runtime Sample.pods_with_metrics
         (mount Sample.beService 7 Sample.pod_view Sample.before)).

Definition first_row : value :=
  match rowData (this shown) with
  | VArr (row :: _) _ => row
  | _ => VUndefined
  end.

Definition click (row : value) : value := VObj [("data", row)].

(** The pod list comes as [resource], and the metrics are the empty
    string. *)
Definition resource_without_metrics : Event :=
  Sample.event
    (Reference.text "{'resource':" ++
     Reference.literal (Reference.text Sample.pod_list) ++
     Reference.text ",'metrics':''}").

(** The pod list comes as [resource] and there is no [metrics]. *)
Definition resource_alone : Event :=
  Sample.event
    (Reference.text "{'resource':" ++
     Reference.literal (Reference.text Sample.pod_list) ++ "}").

(** The pod list comes as [resource], and the metrics are no JSON text. *)
Definition resource_with_broken_metrics : Event :=
  Sample.event
    (Reference.text "{'resource':" ++
     Reference.literal (Reference.text Sample.pod_list) ++
     Reference.text ",'metrics':'oops'}").

(** The pod list comes as [resource], and the metrics parse to an object
    without [items]. *)
Definition resource_with_empty_metrics : Event :=
  Sample.event
    (Reference.text "{'resource':" ++
     Reference.literal (Reference.text Sample.pod_list) ++
     Reference.text ",'metrics':'{}'}").

Definition actions : list Action :=
  [ {| action_name := "restart"; callback := "restart_pod" |};
    {| action_name := "logs"; callback := "tail_logs" |};
    {| action_name := "restart"; callback := "restart_again" |} ].

End Scenario.

(* ===================================================================== *)
(** * Properties *)
(* ===================================================================== *)

(** ** Values *)

Lemma assoc_assoc_set_same k x ps : assoc k (assoc_set k x ps) = Some x.
Proof.
  induction ps as [|[k' v] ps IH]; simpl.
  - now rewrite String.eqb_refl.
  - destruct (String.eqb k k') eqn:E; simpl; rewrite E; auto.
Qed.

Lemma assoc_assoc_set_other k k' x ps :
  k' <> k -> assoc k' (assoc_set k x ps) = assoc k' ps.
Proof.
  intros Hne. induction ps as [|[k0 v] ps IH]; simpl.
  - destruct (String.eqb_spec k' k); [contradiction | reflexivity].
  - destruct (String.eqb_spec k k0) as [->|]; simpl.
    + destruct (String.eqb_spec k' k0); [contradiction | reflexivity].
    + now rewrite IH.
Qed.

Lemma lookup_assoc_set_same k x ps : lookup k (assoc_set k x ps) = x.
Proof. unfold lookup. now rewrite assoc_assoc_set_same. Qed.

Lemma lookup_assoc_set_other k k' x ps :
  k' <> k -> lookup k' (assoc_set k x ps) = lookup k' ps.
Proof. intros. unfold lookup. now rewrite assoc_assoc_set_other. Qed.

(** A property written to an object is read back, and the other properties
    read as before. *)
Lemma get_put_same ps k x : get (put (VObj ps) k x) k = Ok x.
Proof. simpl. now rewrite lookup_assoc_set_same. Qed.

Lemma get_put_other v k k' x : k' <> k -> get (put v k x) k' = get v k'.
Proof.
  intros Hne. destruct v; simpl; try reflexivity.
  - destruct (String.eqb k' "length"); [reflexivity|].
    now rewrite lookup_assoc_set_other.
  - now rewrite lookup_assoc_set_other.
Qed.

(** ** [initialize] *)

Lemma add_timers_nil w : add_timers [] w = w.
Proof. destruct w; unfold add_timers; simpl. now rewrite app_nil_r. Qed.

Lemma initialize_loop_scheduled cmds : forall delay w,
  initialize_loop cmds delay w = (Ok tt, add_timers (scheduled delay cmds) w).
Proof.
  induction cmds as [|cmd cmds IH]; intros delay w; simpl.
  - now rewrite add_timers_nil.
  - unfold seq, setTimeout, modify. rewrite IH.
    unfold add_timers; simpl. now rewrite <- app_assoc.
Qed.

Lemma scheduled_length cmds : forall delay,
  List.length (scheduled delay cmds) = List.length cmds.
Proof. induction cmds; intros; simpl; auto. Qed.

Lemma scheduled_nth cmds : forall delay i cmd,
  nth_error cmds i = Some cmd ->
  nth_error (scheduled delay cmds) i =
    Some (delay + Z.of_nat i * 1000,
          executeCommandInCurrentNs (command cmd) (arguments cmd) true).
Proof.
  induction cmds as [|c cmds IH]; intros delay i cmd H.
  - destruct i; discriminate.
  - destruct i as [|i]; simpl in *.
    + injection H as ->. do 2 f_equal. lia.
    + rewrite (IH _ _ _ H). do 2 f_equal. lia.
Qed.

Lemma initialize_scheduled w :
  initialize w =
    (Ok tt,
     match resource_command (resource (this w)) with
     | Some cmds => add_timers (scheduled 0 cmds) w
     | None => w
     end).
Proof.
  unfold initialize. destruct (resource_command _); [|reflexivity].
  apply initialize_loop_scheduled.
Qed.

(** C3.  [initialize] returns normally and leaves one timer per entry of
    the resource's command list, in list order after the timers that were
    there: the timer of the i-th command (from 0) has delay i * 1000 ms and
    runs [executeCommandInCurrentNs(cmd.command, cmd.arguments, true)].
    Nothing else of the component changes. *)
Theorem initialize_staggers (w : World) (cmds : list Command) :
  resource_command (resource (this w)) = Some cmds ->
  exists w',
    initialize w = (Ok tt, w') /\
    this w' = this w /\
    List.length (timers w') = (List.length (timers w) + List.length cmds)%nat /\
    forall i cmd,
      nth_error cmds i = Some cmd ->
      nth_error (timers w') (List.length (timers w) + i) =
        Some (Z.of_nat i * 1000,
              executeCommandInCurrentNs (command cmd) (arguments cmd) true).
Proof.
  intros Hc. rewrite initialize_scheduled, Hc.
  eexists; split; [reflexivity|]. simpl. split; [reflexivity|]. split.
  - now rewrite length_app, scheduled_length.
  - intros i cmd Hi.
    rewrite nth_error_app2 by lia.
    replace (List.length (timers w) + i - List.length (timers w))%nat with i
      by lia.
    now rewrite (scheduled_nth _ 0 _ _ Hi).
Qed.

Lemma initialize_staggers_witness :
  resource_command (resource (this Sample.world)) =
    Some [ {| command := "get_pods"; arguments := VObj [] |};
           {| command := "get_metrics_pods"; arguments := VObj [] |};
           {| command := "get_events"; arguments := VObj [] |} ] /\
  exists w',
    initialize Sample.world = (Ok tt, w') /\
    this w' = this Sample.world /\
    List.length (timers w') = 3%nat /\
    forall i cmd,
      nth_error
        [ {| command := "get_pods"; arguments := VObj [] |};
          {| command := "get_metrics_pods"; arguments := VObj [] |};
          {| command := "get_events"; arguments := VObj [] |} ] i = Some cmd ->
      nth_error (timers w') (0 + i) =
        Some (Z.of_nat i * 1000,
              executeCommandInCurrentNs (command cmd) (arguments cmd) true).
Proof.
  split; [reflexivity|].
  exact (initialize_staggers Sample.world _ eq_refl).
Defined.

(** The three commands of the sample view get the delays 0, 1000 and 2000. *)
Example initialize_three_commands :
  List.map fst (timers (snd (initialize Sample.world))) = [0; 1000; 2000].
Proof. reflexivity. Qed.

(** ** The lifecycle subscriber *)

(** C10.  With [escape_hit] a signal of its own, handling it returns
    normally and leaves [isSideBarHidden] true; no other field of the
    component and nothing around it changes; handling it once more changes
    nothing at all. *)
Theorem escape_hides_sidebar (be : TauriAdapter) (w : World) :
  escape_hit be <> cluster_changed be ->
  escape_hit be <> ns_changed be ->
  exists w',
    on_app_event be (escape_hit be) w = (Ok tt, w') /\
    isSideBarHidden (this w') = true /\
    same_but_sidebar (this w) (this w') /\
    (console w', timers w', aggrid w', listeners w', eventBus w') =
      (console w, timers w, aggrid w, listeners w, eventBus w) /\
    on_app_event be (escape_hit be) w' = (Ok tt, w').
Proof.
  intros H1 H2. unfold on_app_event.
  destruct (String.eqb_spec (escape_hit be) (cluster_changed be));
    [contradiction|].
  destruct (String.eqb_spec (escape_hit be) (ns_changed be)); [contradiction|].
  rewrite String.eqb_refl.
  destruct (isSideBarHidden (this w)) eqn:Hs; simpl.
  - exists w. rewrite Hs. simpl. unfold same_but_sidebar. auto 10.
  - eexists. split; [reflexivity|]. simpl. unfold same_but_sidebar. auto 10.
Qed.

Lemma escape_hides_sidebar_witness :
  escape_hit Sample.beService <> cluster_changed Sample.beService /\
  escape_hit Sample.beService <> ns_changed Sample.beService /\
  exists w',
    on_app_event Sample.beService "escape_hit" Sample.world = (Ok tt, w') /\
    isSideBarHidden (this w') = true /\
    same_but_sidebar (this Sample.world) (this w') /\
    (console w', timers w', aggrid w', listeners w', eventBus w') =
      (console Sample.world, timers Sample.world, aggrid Sample.world,
       listeners Sample.world, eventBus Sample.world) /\
    on_app_event Sample.beService "escape_hit" w' = (Ok tt, w').
Proof.
  split; [discriminate|]. split; [discriminate|].
  apply (escape_hides_sidebar Sample.beService Sample.world); discriminate.
Defined.

(** C4, as the code has it.  With [ns_changed] and [cluster_changed] two
    signals and the grid resolved, both make the view loading and clear the
    rows it shows ([rowData$] and the grid); the field [rowData] and the other
    fields stay.  After [ns_changed] the timers of [initialize] are added;
    after [cluster_changed] no timer is. *)
Theorem context_change_invalidates (be : TauriAdapter) (w : World)
  (grid : value) :
  ns_changed be <> cluster_changed be ->
  aggrid w = Some grid ->
  (exists w',
     on_app_event be (ns_changed be) w = (Ok tt, w') /\
     isLoading (this w') = true /\
     rowData_obs (this w') = from (VArr [] []) /\
     aggrid w' = Some (VArr [] []) /\
     same_but_table (this w) (this w') /\
     timers w' = (timers w ++ initial_timers (this w))%list) /\
  (exists w',
     on_app_event be (cluster_changed be) w = (Ok tt, w') /\
     isLoading (this w') = true /\
     rowData_obs (this w') = from (VArr [] []) /\
     aggrid w' = Some (VArr [] []) /\
     same_but_table (this w) (this w') /\
     timers w' = timers w).
Proof.
  intros Hne Hgrid. unfold on_app_event. split.
  - destruct (String.eqb_spec (ns_changed be) (cluster_changed be));
      [contradiction|].
    rewrite String.eqb_refl.
    unfold seq, set_isLoading, clearTable, update_this, modify, seq. simpl.
    rewrite Hgrid, initialize_scheduled. eexists; split; [reflexivity|].
    unfold initial_timers, same_but_table. simpl.
    destruct (resource_command (resource (this w))); simpl;
      rewrite ?app_nil_r; auto 10.
  - rewrite String.eqb_refl.
    unfold seq, set_isLoading, clearTable, update_this, modify, seq. simpl.
    rewrite Hgrid. eexists; split; [reflexivity|].
    unfold same_but_table. simpl. auto 10.
Qed.

Lemma context_change_invalidates_witness :
  ns_changed Sample.beService <> cluster_changed Sample.beService /\
  aggrid Sample.world = Some (VArr [] []) /\
  (exists w',
     on_app_event Sample.beService "ns_changed" Sample.world = (Ok tt, w') /\
     isLoading (this w') = true /\
     rowData_obs (this w') = from (VArr [] []) /\
     aggrid w' = Some (VArr [] []) /\
     same_but_table (this Sample.world) (this w') /\
     timers w' = (timers Sample.world ++ initial_timers (this Sample.world))%list) /\
  (exists w',
     on_app_event Sample.beService "cluster_changed" Sample.world
       = (Ok tt, w') /\
     isLoading (this w') = true /\
     rowData_obs (this w') = from (VArr [] []) /\
     aggrid w' = Some (VArr [] []) /\
     same_but_table (this Sample.world) (this w') /\
     timers w' = timers Sample.world).
Proof.
  split; [discriminate|]. split; [reflexivity|].
  apply (context_change_invalidates Sample.beService Sample.world
           (VArr [] [])); [discriminate|reflexivity].
Defined.

(** Before the grid is resolved both signals make the subscriber throw a
    [TypeError] from [clearTable]: the view is loading and [rowData$] is
    cleared by then, and no command is scheduled, not even on
    [ns_changed]. *)
Lemma context_change_before_the_grid be w data :
  aggrid w = None ->
  data = cluster_changed be \/ data = ns_changed be ->
  exists w',
    on_app_event be data w = (Throw TypeError, w') /\
    isLoading (this w') = true /\
    rowData_obs (this w') = from (VArr [] []) /\
    same_but_table (this w) (this w') /\
    (console w', timers w', aggrid w', listeners w', eventBus w') =
      (console w, timers w, aggrid w, listeners w, eventBus w).
Proof.
  intros Hgrid Hdata. unfold on_app_event.
  assert (Hc : (set_isLoading true ;; clearTable)%stmt w =
               (Throw TypeError,
                snd ((set_isLoading true ;; clearTable)%stmt w))).
  { unfold seq, set_isLoading, clearTable, update_this, modify, seq. simpl.
    now rewrite Hgrid. }
  destruct (String.eqb_spec data (cluster_changed be)).
  - rewrite Hc. eexists. split; [reflexivity|].
    unfold seq, set_isLoading, clearTable, update_this, modify, seq,
      same_but_table. simpl. rewrite Hgrid. simpl.
    repeat split; now rewrite ?Hgrid.
  - destruct Hdata as [-> | ->]; [contradiction|].
    rewrite String.eqb_refl.
    unfold seq, set_isLoading, clearTable, update_this, modify, seq,
      same_but_table. simpl. rewrite Hgrid. simpl.
    eexists. split; [reflexivity|]. simpl.
    repeat split; now rewrite ?Hgrid.
Qed.

(** C4 as claimed fails for [cluster_changed]: the sample view has three
    initial commands, and a cluster change schedules none of them.  And of
    the row data only [rowData$] and the rows of the grid are cleared: in the
    view that shows the two sample pods, either signal leaves the two rows in
    the field [rowData]. *)
Lemma cluster_change_does_not_retrigger :
  ~ invalidates_and_retriggers Sample.beService "cluster_changed"
      Sample.world /\
  forall data, data = "cluster_changed" \/ data = "ns_changed" ->
    let w' := snd (on_app_event Sample.beService data Scenario.shown) in
    (exists row0 row1,
       rowData (this Scenario.shown) = VArr [row0; row1] [] /\
       rowData (this w') = VArr [row0; row1] []) /\
    rowData_obs (this w') = from (VArr [] []) /\
    aggrid w' = Some (VArr [] []).
Proof.
  split.
  - unfold invalidates_and_retriggers. simpl. intros (_ & _ & _ & H).
    discriminate H.
  - intros data [-> | ->]; cbv zeta;
      (split; [do 2 eexists; split; vm_compute; reflexivity|]);
      split; vm_compute; reflexivity.
Qed.

(** The same claim holds for [ns_changed] on the sample view. *)
Example ns_change_retriggers :
  invalidates_and_retriggers Sample.beService "ns_changed" Sample.world.
Proof. unfold invalidates_and_retriggers. simpl. auto. Qed.

(** ** [handleEvent] *)

(** The handler as one case analysis: the parse and its log line first, then
    the channel test, the two payload shapes, the item loop and the update
    of the table. *)
Lemma handleEvent_cases be rt ev w :
  handleEvent be rt ev w =
    let parsed := JSON_parse_value rt (lodash_get (payload ev) "data") in
    let results := match parsed with Ok v => v | Throw _ => VUndefined end in
    let w1 := match parsed with
              | Ok _ => w
              | Throw _ => logged "Failed to parse payload" w
              end in
    if String.eqb (ev_name ev) (app_command_result be) then
      match join_shape rt results Map_new with
      | Throw e => (Throw e, w1)
      | Ok (results, mmap) =>
          match get results "items" with
          | Throw e => (Throw e, w1)
          | Ok items =>
              if truthy items then
                match elements items with
                | Throw e => (Throw e, w1)
                | Ok l =>
                    match forEach (each_item rt mmap) l with
                    | Throw e => (Throw e, w1)
                    | Ok l' =>
                        (Ok tt,
                         with_this
                           (show_items (with_elements items l') (this w1)) w1)
                    end
                end
              else (Ok tt, w1)
          end
      end
    else (Ok tt, w1).
Proof.
  unfold handleEvent, seq, try_catch, lift, console_error, modify, ret.
  destruct (JSON_parse_value rt _) as [results|e]; cbn zeta;
    (destruct (String.eqb _ _); [|reflexivity]);
    (destruct (join_shape rt _ Map_new) as [[results' mmap]|e']; [|reflexivity]);
    (destruct (get results' "items") as [items|e'']; [|reflexivity]);
    (destruct (truthy items); [|reflexivity]);
    (destruct (elements items) as [l|e3]; [|reflexivity]);
    (destruct (forEach _ l) as [l'|e4]; reflexivity).
Qed.

(** A payload that is neither shape leaves [results] and the empty map. *)
Lemma join_shape_neither rt results :
  has results "items" = false ->
  has results "resource" && has results "metrics" = false ->
  join_shape rt results Map_new = Throw TypeError \/
  join_shape rt results Map_new = Ok (results, Map_new).
Proof.
  unfold has, lodash_get, join_shape. intros Hi Hrm.
  destruct (get results "items") as [items|e] eqn:Gi.
  - right. simpl.
    assert (Hr : exists r, get results "resource" = Ok r)
      by (destruct results; simpl in Gi; try discriminate Gi; simpl; eauto).
    assert (Hm : exists m, get results "metrics" = Ok m)
      by (destruct results; simpl in Gi; try discriminate Gi; simpl; eauto).
    destruct Hr as [r Hr], Hm as [m Hm]. rewrite Hr, Hm in *. simpl.
    rewrite Hi. simpl. now rewrite Hrm.
  - left. destruct results; simpl in Gi; try discriminate Gi;
      injection Gi as <-; reflexivity.
Qed.

(** Data that parsed and is of neither shape leaves the component and the
    grid as they were. *)
Lemma handleEvent_neither_shape be rt ev w results :
  JSON_parse_value rt (lodash_get (payload ev) "data") = Ok results ->
  has results "items" = false ->
  has results "resource" && has results "metrics" = false ->
  this (snd (handleEvent be rt ev w)) = this w /\
  aggrid (snd (handleEvent be rt ev w)) = aggrid w.
Proof.
  intros Hp Hi Hrm. rewrite handleEvent_cases. cbn zeta.
  rewrite Hp. destruct (String.eqb _ _); [|auto].
  destruct (join_shape_neither rt results Hi Hrm) as [-> | ->]; [auto|].
  unfold has, lodash_get in Hi.
  destruct (get results "items") as [items|]; [|auto].
  rewrite Hi. auto.
Qed.

(** C9.  An event of another channel, or one whose payload parses to data
    with no [items] and without the pair [resource] and [metrics], leaves
    every field of the component as it was, and the grid too. *)
Theorem handleEvent_leaves_component (be : TauriAdapter) (rt : Runtime)
  (ev : Event) (w : World) :
  ev_name ev <> app_command_result be \/
  (exists results,
     JSON_parse_value rt (lodash_get (payload ev) "data") = Ok results /\
     has results "items" = false /\
     has results "resource" && has results "metrics" = false) ->
  this (snd (handleEvent be rt ev w)) = this w /\
  aggrid (snd (handleEvent be rt ev w)) = aggrid w.
Proof.
  intros [Hne | (results & Hp & Hi & Hrm)].
  - rewrite handleEvent_cases. cbn zeta.
    destruct (String.eqb_spec (ev_name ev) (app_command_result be));
      [contradiction|].
    destruct (JSON_parse_value rt _); auto.
  - now apply handleEvent_neither_shape with results.
Qed.

(** ** The merge *)

Lemma is_object_inv v : is_object v = true -> exists ps, v = VObj ps.
Proof. destruct v; try discriminate. eauto. Qed.

Lemma lodash_get_object ps k : lodash_get (VObj ps) k = lookup k ps.
Proof. reflexivity. Qed.

Lemma get_object ps k : get (VObj ps) k = Ok (lookup k ps).
Proof. reflexivity. Qed.

(** The shape of a resource item, spelled out. *)
Lemma resource_item_inv item :
  resource_item item = true ->
  exists ps md sp cs,
    item = VObj ps /\
    lookup "metadata" ps = VObj md /\
    lookup "spec" ps = VObj sp /\
    optional_list (lookup "containers" sp) = Some cs /\
    forallb container cs = true.
Proof.
  unfold resource_item. intros H.
  apply andb_prop in H as [H Hc]. apply andb_prop in H as [H Hs].
  apply andb_prop in H as [Hi Hm].
  apply is_object_inv in Hi as [ps ->].
  rewrite lodash_get_object in *.
  apply is_object_inv in Hm as [md Hm]. apply is_object_inv in Hs as [sp Hs].
  rewrite Hs in Hc. rewrite lodash_get_object in Hc.
  destruct (optional_list _) as [cs|] eqn:Ho; [|discriminate].
  exists ps, md, sp, cs. auto.
Qed.

Lemma metrics_entry_inv m :
  metrics_entry m = true ->
  exists mp cs,
    m = VObj mp /\
    optional_list (lookup "containers" mp) = Some cs /\
    forallb is_object cs = true.
Proof.
  unfold metrics_entry. intros H. apply andb_prop in H as [Hi Hc].
  apply is_object_inv in Hi as [mp ->]. rewrite lodash_get_object in Hc.
  destruct (optional_list _) as [cs|] eqn:Ho; [|discriminate]. eauto.
Qed.

(** What a metrics map answers is a metrics entry or [undefined]. *)
Lemma metrics_map_get mmap k :
  metrics_map mmap = true ->
  map_get mmap k = VUndefined \/ metrics_entry (map_get mmap k) = true.
Proof.
  unfold metrics_map. induction mmap as [|[k' m] mmap IH]; simpl; [auto|].
  intros H. apply andb_prop in H as [Hm H].
  destruct (same_value_zero k k'); auto.
Qed.

Lemma optional_list_inv v cs :
  optional_list v = Some cs ->
  (cs = [] /\ truthy v = false) \/ v = VArr cs [].
Proof.
  destruct v as [| | | | |l ps|]; simpl; try discriminate;
    try (intros [= <-]; auto).
  destruct ps; [|discriminate]. intros [= <-]. auto.
Qed.

Lemma gt0_length rt (l : list value) :
  gt0 (string_gt0 rt) (VNum (Z.of_nat (List.length l))) =
    negb (Nat.eqb (List.length l) 0).
Proof.
  simpl. destruct l; simpl; [reflexivity|]. apply Z.ltb_lt. lia.
Qed.

(** On resource items and a metrics map, the loop body before [flat]
    computes the merge as specified. *)
Lemma merge_usage_merged rt mmap item :
  resource_item item = true ->
  metrics_map mmap = true ->
  merge_usage rt mmap item = Ok (merged mmap item).
Proof.
  intros Hitem Hmap.
  destruct (resource_item_inv _ Hitem) as (ps & md & sp & cs & -> & Hmd & Hsp & Hcs & Hall).
  unfold merge_usage, merged, first_container, usable_metrics, containers_of,
    name_of, attach_usage.
  rewrite !get_object, !lodash_get_object, Hmd, Hsp. simpl bind.
  rewrite !lodash_get_object.
  destruct (optional_list_inv _ _ Hcs) as [[-> Hf] | Hc].
  - rewrite Hf. simpl. now destruct (lookup "containers" sp).
  - rewrite Hc. cbn [truthy get String.eqb Ascii.eqb Bool.eqb bind].
    rewrite gt0_length.
    destruct cs as [|c rest]; [reflexivity|].
    cbn [List.length Nat.eqb negb hd_error].
    destruct (metrics_map_get mmap (lookup "name" md) Hmap) as [-> | Hentry].
    + reflexivity.
    + destruct (metrics_entry_inv _ Hentry) as (mp & ms & -> & Hms & Hobj).
      rewrite !get_object, !lodash_get_object.
      cbn [truthy bind].
      destruct (optional_list_inv _ _ Hms) as [[-> Hf] | Hm].
      * rewrite Hf. simpl. now destruct (lookup "containers" mp).
      * rewrite Hm. cbn [truthy get String.eqb Ascii.eqb Bool.eqb bind].
        rewrite gt0_length.
        destruct ms as [|m0 ms]; [reflexivity|].
        cbn [List.length Nat.eqb negb hd_error get_index nth bind].
        simpl in Hall. apply andb_prop in Hall as [Hcont _].
        unfold container in Hcont. apply andb_prop in Hcont as [Hco Hres].
        apply is_object_inv in Hco as [cp ->].
        rewrite lodash_get_object in Hres.
        apply is_object_inv in Hres as [rp Hres].
        simpl in Hobj. apply andb_prop in Hobj as [Hm0 _].
        apply is_object_inv in Hm0 as [m0p ->].
        rewrite !get_object, !lodash_get_object, Hres. reflexivity.
Qed.

Lemma merged_object mmap ps : exists ps', merged mmap (VObj ps) = VObj ps'.
Proof.
  unfold merged, attach_usage.
  destruct (first_container _); [|eauto].
  destruct (usable_metrics _ _); [|eauto].
  destruct (lodash_get (lodash_get _ _) _) as [| | | | |[|first rest] ?|];
    simpl; eauto.
Qed.

(** On resource items and a metrics map, the callback of the item loop
    returns the rendered item. *)
Lemma each_item_rendered rt mmap item :
  resource_item item = true ->
  metrics_map mmap = true ->
  each_item rt mmap item = Ok (rendered rt mmap item).
Proof.
  intros Hitem Hmap. unfold each_item, rendered.
  rewrite (merge_usage_merged rt _ _ Hitem Hmap). simpl bind.
  destruct (resource_item_inv _ Hitem) as (ps & _ & _ & _ & -> & _).
  destruct (merged_object mmap ps) as [ps' ->]. reflexivity.
Qed.

Lemma forEach_rendered rt mmap l :
  forallb resource_item l = true ->
  metrics_map mmap = true ->
  forEach (each_item rt mmap) l = Ok (List.map (rendered rt mmap) l).
Proof.
  intros Hl Hmap. induction l as [|item l IH]; [reflexivity|].
  simpl in Hl. apply andb_prop in Hl as [Hitem Hl].
  simpl. rewrite (each_item_rendered rt _ _ Hitem Hmap). simpl.
  now rewrite (IH Hl).
Qed.

(** The handler on a payload whose shape gave the item list [l] and the
    metrics map [mmap]: it returns normally, and the table shows the
    rendered items. *)
Lemma handleEvent_renders be rt ev w results results' mmap l ps :
  ev_name ev = app_command_result be ->
  JSON_parse_value rt (lodash_get (payload ev) "data") = Ok results ->
  join_shape rt results Map_new = Ok (results', mmap) ->
  get results' "items" = Ok (VArr l ps) ->
  forallb resource_item l = true ->
  metrics_map mmap = true ->
  handleEvent be rt ev w =
    (Ok tt,
     with_this
       (show_items (VArr (List.map (rendered rt mmap) l) ps) (this w)) w).
Proof.
  intros Hn Hp Hj Hi Hl Hmap. rewrite handleEvent_cases. cbn zeta.
  rewrite Hn, String.eqb_refl, Hp, Hj, Hi. simpl.
  now rewrite (forEach_rendered rt _ _ Hl Hmap).
Qed.


(** The update of lines 158-163 shows the rows and touches nothing else. *)
Lemma shows_show_items rows w :
  shows rows w (with_this (show_items rows (this w)) w).
Proof. unfold shows. simpl. auto 10. Qed.





(** C5.  When usage is merged into a resource item, the row differs from
    the item in three places only: the new field [flat] of the item, and in
    the first container of [spec.containers] the property [usage] of
    [resources], which holds the usage of the first metrics container.  The
    containers after the first are the same, the other properties of the
    first container and of its [resources] read as before, and so do the
    other properties of the spec and of the item. *)
Theorem merge_changes_first_usage_only (rt : Runtime) (mmap : Map)
  (item c m0 : value) (rest : list value) :
  resource_item item = true ->
  metrics_map mmap = true ->
  containers_of (lodash_get item "spec") = c :: rest ->
  usable_metrics mmap item = Some m0 ->
  exists row c1,
    each_item rt mmap item = Ok row /\
    containers_of (lodash_get row "spec") = c1 :: rest /\
    (forall k, k <> "resources" -> get c1 k = get c k) /\
    (forall k, k <> "usage" ->
       get (lodash_get c1 "resources") k = get (lodash_get c "resources") k) /\
    get (lodash_get c1 "resources") "usage" = Ok (lodash_get m0 "usage") /\
    (forall k, k <> "containers" ->
       get (lodash_get row "spec") k = get (lodash_get item "spec") k) /\
    (forall k, k <> "spec" -> k <> "flat" -> get row k = get item k).
Proof.
  intros Hitem Hmap Hcs Hm.
  rewrite (each_item_rendered rt _ _ Hitem Hmap).
  unfold rendered, merged, first_container. rewrite Hcs, Hm. simpl hd_error.
  destruct (resource_item_inv _ Hitem)
    as (ps & md & sp & cs & -> & Hmd & Hsp & Hopt & Hall).
  unfold containers_of in Hcs. rewrite lodash_get_object, Hsp in *.
  rewrite lodash_get_object in Hcs.
  destruct (optional_list_inv _ _ Hopt) as [[-> Hf] | Hc].
  { destruct (lookup "containers" sp); discriminate. }
  rewrite Hc in Hcs. subst cs. simpl in Hall.
  apply andb_prop in Hall as [Hcont _].
  unfold container in Hcont. apply andb_prop in Hcont as [Hco Hres].
  apply is_object_inv in Hco as [cp ->]. rewrite lodash_get_object in Hres.
  apply is_object_inv in Hres as [rp Hres].
  unfold attach_usage. rewrite lodash_get_object, Hsp, lodash_get_object, Hc.
  rewrite lodash_get_object, Hres.
  eexists. exists (put (VObj cp) "resources"
                     (put (VObj rp) "usage" (lodash_get m0 "usage"))).
  split; [reflexivity|].
  assert (Hspec : forall x y,
            lodash_get (put (put (VObj ps) "spec" x) "flat" y) "spec" = x).
  { intros x y. unfold lodash_get.
    rewrite get_put_other by discriminate. now rewrite get_put_same. }
  rewrite Hspec.
  assert (Hres1 : lodash_get
                    (put (VObj cp) "resources"
                       (put (VObj rp) "usage" (lodash_get m0 "usage")))
                    "resources"
                  = put (VObj rp) "usage" (lodash_get m0 "usage")).
  { unfold lodash_get. now rewrite get_put_same. }
  rewrite Hres1.
  repeat split.
  - unfold containers_of, lodash_get. now rewrite get_put_same.
  - intros k Hk. now apply get_put_other.
  - intros k Hk. now apply get_put_other.
  - apply get_put_same.
  - intros k Hk. now apply get_put_other.
  - intros k Hk1 Hk2. rewrite get_put_other by assumption.
    rewrite get_put_other by assumption. reflexivity.
Qed.

Lemma merge_changes_first_usage_only_witness :
  resource_item Sample.web = true /\
  metrics_map Sample.mmap = true /\
  containers_of (lodash_get Sample.web "spec") =
    [ VObj [("name", VStr "nginx");
            ("resources", VObj [("limits", VObj [("cpu", VStr "1")])])];
      VObj [("name", VStr "sidecar"); ("resources", VObj [])] ] /\
  usable_metrics Sample.mmap Sample.web =
    Some (VObj [("name", VStr "nginx");
                ("usage", VObj [("cpu", VStr "3m"); ("memory", VStr "9Mi")])]) /\
  exists row c1,
    each_item Reference.runtime Sample.mmap Sample.web = Ok row /\
    containers_of (lodash_get row "spec") =
      [c1; VObj [("name", VStr "sidecar"); ("resources", VObj [])]] /\
    get (lodash_get c1 "resources") "usage" =
      Ok (VObj [("cpu", VStr "3m"); ("memory", VStr "9Mi")]).
Proof.
  repeat (split; [reflexivity|]).
  destruct (merge_changes_first_usage_only Reference.runtime Sample.mmap
              Sample.web _ _ _ eq_refl eq_refl eq_refl eq_refl)
    as (row & c1 & H1 & H2 & _ & _ & H3 & _).
  exists row, c1. auto.
Defined.

Lemma handleEvent_leaves_component_witness :
  (ev_name Sample.status <> app_command_result Sample.beService \/
   exists results,
     JSON_parse_value Reference.runtime
       (lodash_get (payload Sample.status) "data") = Ok results /\
     has results "items" = false /\
     has results "resource" && has results "metrics" = false) /\
  this (snd (handleEvent Sample.beService Reference.runtime Sample.status
               Sample.world)) = this Sample.world /\
  aggrid (snd (handleEvent Sample.beService Reference.runtime Sample.status
                 Sample.world)) = aggrid Sample.world.
Proof.
  assert (H : ev_name Sample.status <> app_command_result Sample.beService \/
              exists results,
                JSON_parse_value Reference.runtime
                  (lodash_get (payload Sample.status) "data") = Ok results /\
                has results "items" = false /\
                has results "resource" && has results "metrics" = false).
  { right. exists (VObj [("kind", VStr "Status")]).
    split; [vm_compute; reflexivity|]. split; reflexivity. }
  split; [exact H|].
  exact (handleEvent_leaves_component Sample.beService Reference.runtime
           Sample.status Sample.world H).
Defined.

(** A parse failure on the result channel: the failure is logged, and the
    read of [results.items] that follows throws. *)
Lemma handleEvent_parse_failure be rt ev w e :
  ev_name ev = app_command_result be ->
  JSON_parse_value rt (lodash_get (payload ev) "data") = Throw e ->
  handleEvent be rt ev w =
    (Throw TypeError, logged "Failed to parse payload" w).
Proof.
  intros Hn Hp. rewrite handleEvent_cases. cbn zeta.
  now rewrite Hn, String.eqb_refl, Hp.
Qed.

(** On another channel the same failure is logged and the handler returns. *)
Lemma handleEvent_parse_failure_elsewhere be rt ev w e :
  ev_name ev <> app_command_result be ->
  JSON_parse_value rt (lodash_get (payload ev) "data") = Throw e ->
  handleEvent be rt ev w = (Ok tt, logged "Failed to parse payload" w).
Proof.
  intros Hn Hp. rewrite handleEvent_cases. cbn zeta. rewrite Hp.
  now destruct (String.eqb_spec (ev_name ev) (app_command_result be)).
Qed.

(** C2.  The event [malformed] of the result channel carries the data
    [not json].  The handler logs the parse failure and then throws a
    [TypeError]: it reads [results.items] with [results] undefined.  The claim
    asks for a handler that skips the result without throwing. *)
Theorem handleEvent_throws_on_malformed_data :
  payload Sample.malformed =
    VObj [("command", VStr "get_pods"); ("data", VStr "not json")] /\
  ev_name Sample.malformed = app_command_result Sample.beService /\
  JSON_parse Reference.runtime "not json" = None /\
  handleEvent Sample.beService Reference.runtime Sample.malformed Sample.world
    = (Throw TypeError, logged "Failed to parse payload" Sample.world).
Proof. repeat split. Qed.

(** ** Teardown *)

(** The handlers leave the wiring alone. *)
Lemma same_wiring_refl w : same_wiring w w.
Proof. unfold same_wiring. auto. Qed.

Lemma same_wiring_trans w1 w2 w3 :
  same_wiring w1 w2 -> same_wiring w2 w3 -> same_wiring w1 w3.
Proof.
  unfold same_wiring. intros (?&?&?&?) (?&?&?&?). repeat split; congruence.
Qed.

Lemma handleEvent_same_wiring be rt ev w :
  same_wiring w (snd (handleEvent be rt ev w)).
Proof.
  rewrite handleEvent_cases. cbn zeta.
  assert (H1 : same_wiring w
                 match JSON_parse_value rt (lodash_get (payload ev) "data") with
                 | Ok _ => w
                 | Throw _ => logged "Failed to parse payload" w
                 end)
    by (destruct (JSON_parse_value rt _); unfold same_wiring; auto).
  destruct (String.eqb _ _); [|exact H1].
  destruct (join_shape rt _ _) as [[results mmap]|]; [|exact H1].
  destruct (get results "items") as [items|]; [|exact H1].
  destruct (truthy items); [|exact H1].
  destruct (elements items); [|exact H1].
  destruct (forEach _ _); [|exact H1].
  eapply same_wiring_trans; [exact H1|]. unfold same_wiring. simpl. auto.
Qed.

Lemma on_app_event_same_wiring be data w :
  same_wiring w (snd (on_app_event be data w)).
Proof.
  unfold on_app_event.
  destruct (String.eqb data (cluster_changed be)).
  { unfold seq, set_isLoading, update_this, clearTable, modify, seq. simpl.
    destruct (aggrid w); unfold same_wiring; simpl; auto. }
  destruct (String.eqb data (ns_changed be)).
  { unfold seq, set_isLoading, update_this, clearTable, modify, seq. simpl.
    destruct (aggrid w); [|unfold same_wiring; simpl; auto].
    rewrite initialize_scheduled. simpl.
    destruct (resource_command _); unfold same_wiring; simpl; auto. }
  destruct (String.eqb data (escape_hit be)); [|apply same_wiring_refl].
  destruct (isSideBarHidden (this w)); unfold same_wiring; simpl; auto.
Qed.

(** A dispatch loop over registrations none of which is the component's
    does nothing. *)
Lemma fold_left_skip {A} (step : World -> A -> World) (mine : A -> bool)
  (f : World -> World) (l : list A) :
  (forall w a, step w a = if mine a then f w else w) ->
  (forall a, In a l -> mine a = false) ->
  forall w, fold_left step l w = w.
Proof.
  intros Hstep. induction l as [|a l IH]; intros Hl w; [reflexivity|].
  simpl. rewrite Hstep, (Hl a (or_introl eq_refl)).
  apply IH. intros b Hb. apply Hl. now right.
Qed.

Lemma publish_result_unregistered be rt me ev w :
  (forall r, In r (listeners w) -> snd r <> me) ->
  publish_result be rt me ev w = w.
Proof.
  intros H. unfold publish_result.
  apply fold_left_skip with
    (mine := fun r => String.eqb (fst r) (ev_name ev) && Nat.eqb (snd r) me)
    (f := isolated (seq (record_delivery (Result ev))
                      (fun _ => handleEvent be rt ev))).
  - reflexivity.
  - intros r Hr. apply andb_false_iff. right.
    apply Nat.eqb_neq. now apply H.
Qed.

Lemma publish_lifecycle_unsubscribed be me key data w :
  (forall s, In s (eventBus w) -> subscriber_of s <> me) ->
  publish_lifecycle be me key data w = w.
Proof.
  intros H. unfold publish_lifecycle.
  apply fold_left_skip with
    (mine := fun s => String.eqb (fst (fst s)) key
                      && Nat.eqb (subscriber_of s) me)
    (f := isolated (seq (record_delivery (Lifecycle data))
                      (fun _ => on_app_event be data))).
  - reflexivity.
  - intros s Hs. apply andb_false_iff. right.
    apply Nat.eqb_neq. now apply H.
Qed.

Lemma fold_left_same_registry {A} (step : World -> A -> World) (l : list A) :
  (forall w a, same_registry w (step w a)) ->
  forall w, same_registry w (fold_left step l w).
Proof.
  intros Hstep. induction l as [|a l IH]; intros w; simpl.
  - unfold same_registry; auto.
  - destruct (Hstep w a) as (H1 & H2 & H3).
    destruct (IH (step w a)) as (H4 & H5 & H6).
    unfold same_registry. repeat split; congruence.
Qed.

Lemma emit_same_registry be rt me e w :
  same_registry w (emit be rt me e w).
Proof.
  destruct e as [ev | key data]; simpl.
  - apply fold_left_same_registry. intros w0 r.
    destruct (_ && _); [|unfold same_registry; auto].
    unfold isolated, seq, record_delivery, modify.
    destruct (handleEvent_same_wiring be rt ev
                {| this := this w0; console := console w0;
                   timers := timers w0; aggrid := aggrid w0;
                   listeners := listeners w0; eventBus := eventBus w0;
                   delivered := (delivered w0 ++ [Result ev])%list |})
      as (H1 & H2 & _ & H4).
    destruct (handleEvent be rt ev _) as [[|] w1]; unfold same_registry;
      simpl in *; auto.
  - apply fold_left_same_registry. intros w0 s0.
    destruct (_ && _); [|unfold same_registry; auto].
    unfold isolated, seq, record_delivery, modify.
    destruct (on_app_event_same_wiring be data
                {| this := this w0; console := console w0;
                   timers := timers w0; aggrid := aggrid w0;
                   listeners := listeners w0; eventBus := eventBus w0;
                   delivered := (delivered w0 ++ [Lifecycle data])%list |})
      as (H1 & H2 & _ & H4).
    destruct (on_app_event be data _) as [[|] w1]; unfold same_registry;
      simpl in *; auto.
Qed.

Lemma emit_all_same_registry be rt me es w :
  same_registry w (emit_all be rt me es w).
Proof.
  unfold emit_all. apply fold_left_same_registry.
  intros w0 e. apply emit_same_registry.
Qed.

(** After [ngOnDestroy] nothing is delivered to the component, whatever is
    published, provided the subscriptions that are the component's all carry
    the token it holds. *)
Lemma ngOnDestroy_silences be rt me w :
  (forall s, In s (eventBus w) -> subscriber_of s = me ->
     subscription (this w) = Some (token_of s)) ->
  unknown_to me (snd (ngOnDestroy me w)) /\
  forall es,
    emit_all be rt me es (snd (ngOnDestroy me w)) = snd (ngOnDestroy me w).
Proof.
  intros Hown.
  assert (Hu : unknown_to me (snd (ngOnDestroy me w))).
  { unfold ngOnDestroy, seq, unRegisterListener, modify. simpl. split.
    - destruct (subscription (this w)); simpl; intros r Hr;
        apply filter_In in Hr as [_ Hr];
        now apply negb_true_iff, Nat.eqb_neq in Hr.
    - destruct (subscription (this w)) as [token|] eqn:Hs; simpl.
      + intros s Hin Hme. apply filter_In in Hin as [Hin Hf].
        apply negb_true_iff, Nat.eqb_neq in Hf.
        specialize (Hown s Hin Hme). congruence.
      + intros s Hin Hme. specialize (Hown s Hin Hme). discriminate. }
  split; [exact Hu|].
  destruct Hu as [Hl Hb]. intros es. unfold emit_all.
  induction es as [|e es IH]; [reflexivity|]. simpl.
  replace (emit be rt me e (snd (ngOnDestroy me w)))
    with (snd (ngOnDestroy me w)); [exact IH|].
  destruct e as [ev | key data]; simpl.
  - symmetry. now apply publish_result_unregistered.
  - symmetry. now apply publish_lifecycle_unsubscribed.
Qed.

(** Mounting the component in a world that did not know it leaves exactly
    one subscription that is its, under the token it holds. *)
Lemma mount_owns be me r w :
  unknown_to me w ->
  forall s, In s (eventBus (mount be me r w)) -> subscriber_of s = me ->
    subscription (this (mount be me r w)) = Some (token_of s).
Proof.
  intros [_ Hb] s.
  unfold mount, seq, constructor, set_resource, ngOnInit, update_this, modify,
    registerListener, seq. simpl.
  rewrite initialize_scheduled. simpl.
  destruct (resource_command r); simpl;
    intros Hin Hme; apply in_app_or in Hin as [Hin | [<- | []]];
    solve [exfalso; exact (Hb s Hin Hme) | reflexivity].
Qed.

(** C7.  Take a world that does not know the component, mount the
    component in it (constructor, [resource] input, [ngOnInit]) and let
    anything be published.  After [ngOnDestroy] the component has no
    registration with the backend service and no subscription on the event
    bus, and whatever is published from then on, no handler of the component
    is run: the record of deliveries, the component and all the rest stay as
    [ngOnDestroy] left them. *)
Theorem no_delivery_after_ngOnDestroy (be : TauriAdapter) (rt : Runtime)
  (me : nat) (r : Resource) (w : World) (before after : list Emission) :
  unknown_to me w ->
  let torn_down :=
    snd (ngOnDestroy me (emit_all be rt me before (mount be me r w))) in
  (forall channel, ~ In (channel, me) (listeners torn_down)) /\
  (forall s, In s (eventBus torn_down) -> subscriber_of s <> me) /\
  delivered (emit_all be rt me after torn_down) = delivered torn_down /\
  emit_all be rt me after torn_down = torn_down.
Proof.
  intros Hfresh torn_down.
  destruct (ngOnDestroy_silences be rt me
              (emit_all be rt me before (mount be me r w))) as [[Hl Hb] Hq].
  - destruct (emit_all_same_registry be rt me before (mount be me r w))
      as (_ & -> & ->).
    now apply mount_owns.
  - fold torn_down in Hl, Hb, Hq. repeat split.
    + intros channel Hin. now apply (Hl _ Hin).
    + exact Hb.
    + now rewrite Hq.
    + apply Hq.
Qed.

Lemma no_delivery_after_ngOnDestroy_witness :
  let be := Sample.beService in
  let rt := Reference.runtime in
  let before := [backend_result Sample.pods;
                 app_signal "app::events" "ns_changed"] in
  let after := [backend_result Sample.pods_with_metrics;
                app_signal "app::events" "cluster_changed"] in
  let mounted := emit_all be rt 7 before (mount be 7 Sample.pod_view Sample.before) in
  let torn_down := snd (ngOnDestroy 7 mounted) in
  unknown_to 7 Sample.before /\
  delivered mounted = [Result Sample.pods; Lifecycle "ns_changed"] /\
  (forall channel, ~ In (channel, 7%nat) (listeners torn_down)) /\
  (forall s, In s (eventBus torn_down) -> subscriber_of s <> 7%nat) /\
  delivered (emit_all be rt 7 after torn_down) = delivered torn_down /\
  emit_all be rt 7 after torn_down = torn_down.
Proof.
  cbv zeta.
  assert (H : unknown_to 7 Sample.before).
  { split; intros x [<- | []]; discriminate. }
  split; [exact H|]. split; [vm_compute; reflexivity|].
  exact (no_delivery_after_ngOnDestroy Sample.beService Reference.runtime 7
           Sample.pod_view Sample.before
           [backend_result Sample.pods; app_signal "app::events" "ns_changed"]
           [backend_result Sample.pods_with_metrics;
            app_signal "app::events" "cluster_changed"] H).
Defined.

(** ** The two shapes of a payload *)

Lemma same_value_zero_eq a b : same_value_zero a b = true -> a = b.
Proof.
  destruct a, b; simpl; try discriminate; try reflexivity; intros H; f_equal.
  - now apply Bool.eqb_prop.
  - now apply Z.eqb_eq.
  - now apply String.eqb_eq.
Qed.

Lemma map_get_map_set m k x k' :
  map_get (map_set m k x) k' =
    if same_value_zero k' k then x else map_get m k'.
Proof.
  induction m as [|[k0 v0] m IH]; simpl; [reflexivity|].
  destruct (same_value_zero k k0) eqn:E; simpl.
  - apply same_value_zero_eq in E as ->.
    now destruct (same_value_zero k' k0).
  - rewrite IH.
    destruct (same_value_zero k' k0) eqn:E0; [|reflexivity].
    destruct (same_value_zero k' k) eqn:E1; [|reflexivity].
    apply same_value_zero_eq in E1 as <-. congruence.
Qed.

Lemma named_inv m :
  named m = true ->
  exists mp md, m = VObj mp /\ lookup "metadata" mp = VObj md.
Proof.
  unfold named. intros H. apply andb_prop in H as [Hm Hmd].
  apply is_object_inv in Hm as [mp ->]. rewrite lodash_get_object in Hmd.
  apply is_object_inv in Hmd as [md Hmd]. eauto.
Qed.

(** The loop over the metrics list builds a map keyed by name. *)
Lemma set_metrics_by_name ms : forall mmap,
  forallb named ms = true ->
  exists mmap',
    set_metrics mmap ms = Ok mmap' /\
    forall k,
      map_get mmap' k = match by_name ms k with
                        | Some m => m
                        | None => map_get mmap k
                        end.
Proof.
  induction ms as [|m ms IH]; intros mmap Hn; simpl.
  - eauto.
  - simpl in Hn. apply andb_prop in Hn as [Hm Hms].
    destruct (named_inv _ Hm) as (mp & md & -> & Hmd).
    rewrite get_object, Hmd. simpl bind.
    destruct (IH (map_set mmap (lookup "name" md) (VObj mp)) Hms)
      as (mmap' & -> & Hget).
    exists mmap'. split; [reflexivity|]. intros k. rewrite Hget.
    destruct (by_name ms k); [reflexivity|].
    rewrite map_get_map_set. unfold name_of.
    rewrite lodash_get_object, Hmd, lodash_get_object.
    now destruct (same_value_zero k (lookup "name" md)).
Qed.

Lemma metrics_map_set mmap k m :
  metrics_map mmap = true -> metrics_entry m = true ->
  metrics_map (map_set mmap k m) = true.
Proof.
  unfold metrics_map. intros Hmap Hm.
  induction mmap as [|[k0 v0] mmap IH]; simpl in *.
  - now rewrite Hm.
  - apply andb_prop in Hmap as [H0 Hmap].
    destruct (same_value_zero k k0); simpl.
    + now rewrite Hm.
    + now rewrite H0, IH.
Qed.

Lemma set_metrics_metrics_map ms : forall mmap mmap',
  metrics_map mmap = true ->
  forallb metrics_entry ms = true ->
  set_metrics mmap ms = Ok mmap' ->
  metrics_map mmap' = true.
Proof.
  induction ms as [|m ms IH]; intros mmap mmap' Hmap Hms; simpl.
  - now intros [= <-].
  - simpl in Hms. apply andb_prop in Hms as [Hm Hms].
    destruct (get m "metadata") as [md|]; [|discriminate]. simpl.
    destruct (get md "name") as [name|]; [|discriminate]. simpl.
    apply IH; [|assumption]. now apply metrics_map_set.
Qed.

(** A value one property of which is truthy can be read at any name. *)
Lemma has_get results k k' :
  has results k = true -> get results k' = Ok (lodash_get results k').
Proof.
  unfold has, lodash_get.
  destruct results; simpl; try discriminate; try reflexivity.
  - destruct (String.eqb k' "length"); reflexivity.
  - destruct (String.eqb k' "length"); reflexivity.
Qed.

(** A payload with [items] is left as it is, with an empty metrics map. *)
Lemma join_shape_items rt results :
  has results "items" = true ->
  join_shape rt results Map_new = Ok (results, Map_new).
Proof.
  intros H. unfold join_shape.
  rewrite !(has_get results "items") by assumption. simpl bind.
  unfold has in H. now rewrite H.
Qed.

Lemma rendered_without_metrics rt item :
  rendered rt Map_new item = unmerged_row rt item.
Proof.
  unfold rendered, unmerged_row, merged. simpl.
  now destruct (first_container item).
Qed.

Lemma lodash_get_array v k l ps :
  lodash_get v k = VArr l ps -> get v k = Ok (VArr l ps).
Proof.
  unfold lodash_get. destruct (get v k); [now intros ->|discriminate].
Qed.

(** Data with a [resource] holds properties: [items] can be assigned and
    read back. *)
Lemma set_items results x :
  has results "resource" = true ->
  set results "items" x = Ok (put results "items" x).
Proof.
  unfold has, lodash_get.
  destruct results; simpl; try discriminate; reflexivity.
Qed.

Lemma get_put_items results x :
  has results "resource" = true ->
  get (put results "items" x) "items" = Ok x.
Proof.
  unfold has, lodash_get.
  destruct results; simpl; try discriminate; intros _;
    now rewrite lookup_assoc_set_same.
Qed.

(** A payload without [items] and with [resource] and [metrics]: both are
    parsed, [items] is taken from the resource list and the map is built
    from the metrics list. *)
Lemma join_shape_resource_metrics rt results resource metrics l ps ms mps :
  has results "items" = false ->
  has results "resource" = true ->
  has results "metrics" = true ->
  JSON_parse_value rt (lodash_get results "resource") = Ok resource ->
  JSON_parse_value rt (lodash_get results "metrics") = Ok metrics ->
  lodash_get resource "items" = VArr l ps ->
  lodash_get metrics "items" = VArr ms mps ->
  forallb named ms = true ->
  forallb metrics_entry ms = true ->
  exists mmap,
    join_shape rt results Map_new
      = Ok (put results "items" (VArr l ps), mmap) /\
    keyed_by_name mmap ms /\
    metrics_map mmap = true.
Proof.
  intros Hi Hr Hm Hpr Hpm Hl Hms Hnamed Hentries.
  destruct (set_metrics_by_name ms Map_new Hnamed) as (mmap & Hset & Hget).
  exists mmap. split; [|split].
  - unfold join_shape.
    rewrite !(has_get results "resource") by assumption. simpl bind.
    unfold has in Hi, Hr, Hm. rewrite Hi, Hr, Hm. simpl.
    rewrite Hpr. simpl bind.
    rewrite (lodash_get_array _ _ _ _ Hl). simpl bind.
    rewrite set_items by assumption. simpl bind.
    rewrite get_put_other by discriminate.
    rewrite (has_get results "resource") by assumption. simpl bind.
    rewrite Hpm. simpl bind.
    rewrite (lodash_get_array _ _ _ _ Hms). simpl bind.
    now rewrite Hset.
  - exact Hget.
  - now apply (set_metrics_metrics_map ms Map_new).
Qed.

(** The loop over a metrics list throws where the name of an entry cannot
    be read, and builds a map keyed by name otherwise. *)
Lemma set_metrics_keyed ms : forall mmap,
  match forEach (fun m => let! md := get m "metadata" in get md "name") ms with
  | Throw e => set_metrics mmap ms = Throw e
  | Ok _ =>
      exists mmap',
        set_metrics mmap ms = Ok mmap' /\
        (forall k,
           map_get mmap' k = match by_name ms k with
                             | Some m => m
                             | None => map_get mmap k
                             end) /\
        (metrics_map mmap = true -> forallb metrics_entry ms = true ->
         metrics_map mmap' = true)
  end.
Proof.
  induction ms as [|m ms IH]; intros mmap; simpl.
  - exists mmap. auto.
  - destruct (get m "metadata") as [md|e] eqn:Gm; simpl; [|reflexivity].
    destruct (get md "name") as [name|e] eqn:Gn; simpl; [|reflexivity].
    specialize (IH (map_set mmap name m)).
    destruct (forEach _ ms) as [names|e]; simpl; [|exact IH].
    destruct IH as (mmap' & Hset & Hget & Hmap).
    exists mmap'. split; [exact Hset|]. split.
    + intros k. rewrite Hget. destruct (by_name ms k); [reflexivity|].
      rewrite map_get_map_set. unfold name_of, lodash_get. rewrite Gm, Gn.
      now destruct (same_value_zero k name).
    + intros H1 H2. apply andb_prop in H2 as [Hm Hms].
      apply Hmap; [|assumption]. now apply metrics_map_set.
Qed.

(** The second shape, read: the block of lines 139-145 throws what the
    reading throws, and leaves the item list in [results.items] and a map
    keyed by name otherwise. *)
Lemma join_shape_read rt results :
  has results "items" = false ->
  has results "resource" = true ->
  has results "metrics" = true ->
  match resource_and_metrics rt results with
  | Throw e => join_shape rt results Map_new = Throw e
  | Ok (items, ms) =>
      exists mmap,
        join_shape rt results Map_new = Ok (put results "items" items, mmap) /\
        keyed_by_name mmap ms /\
        (forallb metrics_entry ms = true -> metrics_map mmap = true)
  end.
Proof.
  intros Hi Hr Hm. unfold join_shape, resource_and_metrics.
  rewrite !(has_get results "resource") by assumption. cbn [bind].
  pose proof Hr as Hr'. unfold has in Hi, Hr', Hm. rewrite Hi, Hr', Hm.
  cbn [negb andb].
  destruct (JSON_parse_value rt (lodash_get results "resource"))
    as [resource|e]; cbn [bind]; [|reflexivity].
  destruct (get resource "items") as [items|e]; cbn [bind]; [|reflexivity].
  rewrite set_items by assumption. cbn [bind].
  rewrite get_put_other by discriminate.
  rewrite (has_get results "resource") by assumption. cbn [bind].
  destruct (JSON_parse_value rt (lodash_get results "metrics"))
    as [metrics|e]; cbn [bind]; [|reflexivity].
  destruct (get metrics "items") as [mitems|e]; cbn [bind]; [|reflexivity].
  destruct (elements mitems) as [ms|e]; cbn [bind]; [|reflexivity].
  pose proof (set_metrics_keyed ms Map_new) as H.
  destruct (forEach _ ms) as [names|e]; cbn [bind].
  - destruct H as (mmap' & -> & Hget & Hmap). exists mmap'.
    split; [reflexivity|]. split; [exact Hget|].
    intros Hms. now apply Hmap.
  - now rewrite H.
Qed.

(** The handler on a payload whose shape gave the truthy [items] and the
    map [mmap]: it shows the rows of the item loop, or throws what the loop
    throws and leaves the world as it was. *)
Lemma handleEvent_table be rt ev w results results' mmap items :
  ev_name ev = app_command_result be ->
  JSON_parse_value rt (lodash_get (payload ev) "data") = Ok results ->
  join_shape rt results Map_new = Ok (results', mmap) ->
  get results' "items" = Ok items ->
  truthy items = true ->
  table_update (table_of rt mmap items) w (handleEvent be rt ev w).
Proof.
  intros Hn Hp Hj Hi Ht. rewrite handleEvent_cases. cbn zeta.
  rewrite Hn, String.eqb_refl, Hp, Hj, Hi, Ht. unfold table_of, table_update.
  destruct (elements items) as [l|e]; cbn [bind]; [|reflexivity].
  destruct (forEach (each_item rt mmap) l) as [l'|e]; cbn [bind];
    [|reflexivity].
  split; [reflexivity|apply shows_show_items].
Qed.

Lemma handleEvent_second_shape be rt ev w results :
  ev_name ev = app_command_result be ->
  JSON_parse_value rt (lodash_get (payload ev) "data") = Ok results ->
  has results "items" = false ->
  has results "resource" = true ->
  has results "metrics" = true ->
  match resource_and_metrics rt results with
  | Throw e => handleEvent be rt ev w = (Throw e, w)
  | Ok (items, ms) =>
      exists mmap,
        keyed_by_name mmap ms /\
        if truthy items
        then table_update (table_of rt mmap items) w (handleEvent be rt ev w)
        else handleEvent be rt ev w = (Ok tt, w)
  end.
Proof.
  intros Hn Hp Hi Hr Hm. pose proof (join_shape_read rt results Hi Hr Hm) as H.
  destruct (resource_and_metrics rt results) as [[items ms]|e].
  - destruct H as (mmap & Hj & Hk & _). exists mmap. split; [exact Hk|].
    destruct (truthy items) eqn:Ht.
    + apply handleEvent_table with results (put results "items" items); auto.
      now apply get_put_items.
    + rewrite handleEvent_cases. cbn zeta.
      rewrite Hn, String.eqb_refl, Hp, Hj, get_put_items by assumption.
      now rewrite Ht.
  - rewrite handleEvent_cases. cbn zeta.
    now rewrite Hn, String.eqb_refl, Hp, H.
Qed.

(** A list that came as [items] is shown as it is, each item with its
    [flat] field. *)
Lemma handleEvent_items be rt ev w results l ps :
  ev_name ev = app_command_result be ->
  JSON_parse_value rt (lodash_get (payload ev) "data") = Ok results ->
  lodash_get results "items" = VArr l ps ->
  forallb resource_item l = true ->
  exists w',
    handleEvent be rt ev w = (Ok tt, w') /\
    shows (VArr (List.map (unmerged_row rt) l) ps) w w'.
Proof.
  intros Hn Hp Hl Hitems.
  assert (Hhas : has results "items" = true)
    by (unfold has; now rewrite Hl).
  eexists. split; [|apply shows_show_items].
  rewrite (handleEvent_renders be rt ev w results results Map_new l ps); auto.
  - rewrite (map_ext _ _ (rendered_without_metrics rt)). reflexivity.
  - now apply join_shape_items.
  - now apply lodash_get_array.
Qed.

(** A list that came as [resource], with a metrics list, is shown merged
    with a map keyed by the names of the metrics list. *)
Lemma handleEvent_joins be rt ev w results resource metrics l ps ms mps :
  ev_name ev = app_command_result be ->
  JSON_parse_value rt (lodash_get (payload ev) "data") = Ok results ->
  has results "items" = false ->
  has results "resource" = true ->
  has results "metrics" = true ->
  JSON_parse_value rt (lodash_get results "resource") = Ok resource ->
  JSON_parse_value rt (lodash_get results "metrics") = Ok metrics ->
  lodash_get resource "items" = VArr l ps ->
  forallb resource_item l = true ->
  lodash_get metrics "items" = VArr ms mps ->
  forallb named ms = true ->
  forallb metrics_entry ms = true ->
  exists mmap w',
    keyed_by_name mmap ms /\
    handleEvent be rt ev w = (Ok tt, w') /\
    shows (VArr (List.map (rendered rt mmap) l) ps) w w'.
Proof.
  intros Hn Hp Hi Hr Hm Hpr Hpm Hl Hitems Hms Hnamed Hentries.
  destruct (join_shape_resource_metrics rt results resource metrics
              l ps ms mps Hi Hr Hm Hpr Hpm Hl Hms Hnamed Hentries)
    as (mmap & Hj & Hk & Hmap).
  exists mmap. eexists. split; [exact Hk|]. split; [|apply shows_show_items].
  apply (handleEvent_renders be rt ev w results
           (put results "items" (VArr l ps)) mmap l ps); auto.
  now apply get_put_items.
Qed.

(** A list that came as [resource] without [metrics] is not looked at. *)
Lemma handleEvent_resource_alone be rt ev w results :
  JSON_parse_value rt (lodash_get (payload ev) "data") = Ok results ->
  has results "items" = false ->
  has results "resource" = true ->
  has results "metrics" = false ->
  handleEvent be rt ev w = (Ok tt, w).
Proof.
  intros Hp Hi Hr Hm. rewrite handleEvent_cases. cbn zeta. rewrite Hp.
  destruct (String.eqb _ _); [|reflexivity].
  unfold join_shape.
  rewrite !(has_get results "resource") by assumption. cbn [bind].
  pose proof Hi as Hi'. unfold has in Hi', Hm. rewrite Hi', Hm.
  rewrite Bool.andb_false_r.
  rewrite (has_get results "resource") by assumption. now rewrite Hi'.
Qed.

(** The row of an item for whose name the metrics list has nothing
    usable. *)
Lemma rendered_unusable rt mmap ms item :
  keyed_by_name mmap ms ->
  usable_in ms item = None ->
  rendered rt mmap item = put item "flat" (flatten rt item).
Proof.
  intros Hk Hnone. unfold rendered, merged, usable_metrics.
  rewrite (Hk (name_of item)). unfold usable_in in Hnone. rewrite Hnone.
  now destruct (first_container item).
Qed.

(** C8, as the code has it.  Let an event of the result channel carry data
    that parses to [results].  (1) If [results.items] is a list of resource
    items (objects with a [metadata] and a [spec] object whose [containers],
    when there, is a list of containers with a [resources] object),
    [handleEvent] returns normally, ends loading and shows one row per item,
    the item with its [flat] field; nothing else changes.  (2) If [results]
    has no [items] but [resource] and [metrics], which parse to a list of
    resource items and to a list of metrics entries (objects with a
    [metadata] object whose [containers], when there, is a list of objects),
    the same holds, and the row of an item for which the metrics list has no
    entry of its name, or an entry without a container entry, is the item
    with its [flat] field.  (3) If [results] has [resource] and neither
    [items] nor [metrics], nothing is shown: the handler returns and the
    world is as it was.  (4) The item with its [flat] field reads as the item
    at every other property. *)
Theorem unmerged_item_is_rendered (be : TauriAdapter) (rt : Runtime)
  (ev : Event) (w : World) (results : value) :
  ev_name ev = app_command_result be ->
  JSON_parse_value rt (lodash_get (payload ev) "data") = Ok results ->
  (forall l ps,
     lodash_get results "items" = VArr l ps ->
     forallb resource_item l = true ->
     exists w' l',
       handleEvent be rt ev w = (Ok tt, w') /\
       shows (VArr l' ps) w w' /\
       List.length l' = List.length l /\
       forall i item,
         nth_error l i = Some item ->
         nth_error l' i = Some (put item "flat" (flatten rt item))) /\
  (forall resource metrics l ps ms mps,
     has results "items" = false ->
     has results "resource" = true ->
     has results "metrics" = true ->
     JSON_parse_value rt (lodash_get results "resource") = Ok resource ->
     JSON_parse_value rt (lodash_get results "metrics") = Ok metrics ->
     lodash_get resource "items" = VArr l ps ->
     forallb resource_item l = true ->
     lodash_get metrics "items" = VArr ms mps ->
     forallb named ms = true ->
     forallb metrics_entry ms = true ->
     exists w' l',
       handleEvent be rt ev w = (Ok tt, w') /\
       shows (VArr l' ps) w w' /\
       List.length l' = List.length l /\
       forall i item,
         nth_error l i = Some item ->
         usable_in ms item = None ->
         nth_error l' i = Some (put item "flat" (flatten rt item))) /\
  (has results "items" = false ->
   has results "resource" = true ->
   has results "metrics" = false ->
   handleEvent be rt ev w = (Ok tt, w)) /\
  (forall item k,
     k <> "flat" -> get (put item "flat" (flatten rt item)) k = get item k).
Proof.
  intros Hn Hp. split; [|split; [|split]].
  - intros l ps Hl Hitems.
    destruct (handleEvent_items be rt ev w results l ps Hn Hp Hl Hitems)
      as (w' & Hh & Hs).
    exists w', (List.map (unmerged_row rt) l).
    split; [exact Hh|]. split; [exact Hs|]. split; [apply length_map|].
    intros i item Hnth. now rewrite nth_error_map, Hnth.
  - intros resource metrics l ps ms mps Hi Hr Hm Hpr Hpm Hl Hitems Hms
      Hnamed Hentries.
    destruct (handleEvent_joins be rt ev w results resource metrics l ps ms
                mps Hn Hp Hi Hr Hm Hpr Hpm Hl Hitems Hms Hnamed Hentries)
      as (mmap & w' & Hk & Hh & Hs).
    exists w', (List.map (rendered rt mmap) l).
    split; [exact Hh|]. split; [exact Hs|]. split; [apply length_map|].
    intros i item Hnth Hnone. rewrite nth_error_map, Hnth. simpl.
    now rewrite (rendered_unusable rt mmap ms item Hk Hnone).
  - intros Hi Hr Hm. now apply handleEvent_resource_alone with results.
  - intros item k Hk. now apply get_put_other.
Qed.

Lemma unmerged_item_is_rendered_witness :
  let be := Sample.beService in
  let rt := Reference.runtime in
  let ev := Sample.pods_with_metrics in
  let results := Sample.parsed ev in
  let resource := VObj [("items", VArr [Sample.web; Sample.db] [])] in
  let ms := [Sample.web_metrics; Sample.db_metrics] in
  let metrics := VObj [("items", VArr ms [])] in
  ev_name ev = app_command_result be /\
  JSON_parse_value rt (lodash_get (payload ev) "data") = Ok results /\
  has results "items" = false /\
  has results "resource" = true /\
  has results "metrics" = true /\
  JSON_parse_value rt (lodash_get results "resource") = Ok resource /\
  JSON_parse_value rt (lodash_get results "metrics") = Ok metrics /\
  forallb resource_item [Sample.web; Sample.db] = true /\
  forallb named ms = true /\
  forallb metrics_entry ms = true /\
  by_name ms (name_of Sample.db) = Some Sample.db_metrics /\
  containers_of Sample.db_metrics = [] /\
  usable_in ms Sample.db = None /\
  exists w' l',
    handleEvent be rt ev Sample.world = (Ok tt, w') /\
    isLoading (this w') = false /\
    rowData (this w') = VArr l' [] /\
    nth_error l' 1 = Some (put Sample.db "flat" (flatten rt Sample.db)).
Proof.
  cbv zeta.
  assert (Hp : JSON_parse_value Reference.runtime
                 (lodash_get (payload Sample.pods_with_metrics) "data")
               = Ok (Sample.parsed Sample.pods_with_metrics))
    by (vm_compute; reflexivity).
  assert (Hnone : usable_in [Sample.web_metrics; Sample.db_metrics] Sample.db
                  = None)
    by (vm_compute; reflexivity).
  repeat (split; [first [assumption | vm_compute; reflexivity]|]).
  destruct (unmerged_item_is_rendered Sample.beService Reference.runtime
              Sample.pods_with_metrics Sample.world _ eq_refl Hp)
    as (_ & Hjoin & _).
  destruct (Hjoin (VObj [("items", VArr [Sample.web; Sample.db] [])])
                  (VObj [("items",
                          VArr [Sample.web_metrics; Sample.db_metrics] [])])
                  [Sample.web; Sample.db] []
                  [Sample.web_metrics; Sample.db_metrics] [])
    as (w' & l' & Hh & Hs & _ & Hrow); try (vm_compute; reflexivity).
  exists w', l'. split; [exact Hh|].
  destruct Hs as (Hload & Hrows & _).
  split; [exact Hload|]. split; [exact Hrows|].
  exact (Hrow 1%nat Sample.db eq_refl Hnone).
Defined.

(** C8 as claimed fails where the pod list comes as [resource] and the
    metrics are not there.  With [metrics] empty or absent the handler
    returns and leaves the world as it was: the view keeps loading and no pod
    is a row.  With [metrics] that are no JSON text, or that parse to an
    object without [items], the handler throws, and again the view keeps
    loading and no pod is a row. *)
Lemma resource_without_metrics_is_not_rendered :
  let rt := Reference.runtime in
  let handle := fun ev => handleEvent Sample.beService rt ev Sample.world in
  let pods := VObj [("items", VArr [Sample.web; Sample.db] [])] in
  (JSON_parse_value rt
     (lodash_get (Sample.parsed Scenario.resource_without_metrics) "resource")
     = Ok pods /\
   lodash_get (Sample.parsed Scenario.resource_without_metrics) "metrics"
     = VStr EmptyString /\
   handle Scenario.resource_without_metrics = (Ok tt, Sample.world) /\
   isLoading (this Sample.world) = true /\
   rowData (this Sample.world) = VArr [] [] /\
   ~ rendered_unmerged rt Sample.web
       (snd (handle Scenario.resource_without_metrics)) /\
   ~ rendered_unmerged rt Sample.db
       (snd (handle Scenario.resource_without_metrics))) /\
  (JSON_parse_value rt
     (lodash_get (Sample.parsed Scenario.resource_alone) "resource")
     = Ok pods /\
   lodash_get (Sample.parsed Scenario.resource_alone) "metrics"
     = VUndefined /\
   handle Scenario.resource_alone = (Ok tt, Sample.world) /\
   ~ rendered_unmerged rt Sample.web (snd (handle Scenario.resource_alone))) /\
  (JSON_parse_value rt
     (lodash_get (Sample.parsed Scenario.resource_with_broken_metrics)
        "resource")
     = Ok pods /\
   handle Scenario.resource_with_broken_metrics
     = (Throw SyntaxError, Sample.world) /\
   ~ rendered_unmerged rt Sample.web
       (snd (handle Scenario.resource_with_broken_metrics))) /\
  (JSON_parse_value rt
     (lodash_get (Sample.parsed Scenario.resource_with_empty_metrics)
        "resource")
     = Ok pods /\
   handle Scenario.resource_with_empty_metrics
     = (Throw TypeError, Sample.world) /\
   ~ rendered_unmerged rt Sample.web
       (snd (handle Scenario.resource_with_empty_metrics))).
Proof.
  cbv zeta beta.
  assert (H1 : handleEvent Sample.beService Reference.runtime
                 Scenario.resource_without_metrics Sample.world
               = (Ok tt, Sample.world)) by (vm_compute; reflexivity).
  assert (H2 : handleEvent Sample.beService Reference.runtime
                 Scenario.resource_alone Sample.world
               = (Ok tt, Sample.world)) by (vm_compute; reflexivity).
  assert (H3 : handleEvent Sample.beService Reference.runtime
                 Scenario.resource_with_broken_metrics Sample.world
               = (Throw SyntaxError, Sample.world))
    by (vm_compute; reflexivity).
  assert (H4 : handleEvent Sample.beService Reference.runtime
                 Scenario.resource_with_empty_metrics Sample.world
               = (Throw TypeError, Sample.world))
    by (vm_compute; reflexivity).
  assert (Hnot : forall item,
            ~ rendered_unmerged Reference.runtime item Sample.world)
    by (intros item [Hload _]; discriminate Hload).
  rewrite H1, H2, H3, H4. simpl snd.
  repeat split; try apply Hnot; vm_compute; reflexivity.
Qed.

(** C6.  Let an event of the result channel carry data that parses to
    [results].  (1) If [results.items] is truthy, the item loop runs over it
    with an empty metrics map: the handler shows the rows the loop makes, or
    throws what the loop throws and leaves the world as it was.  For a list
    of resource items the rows are the items, each with its [flat] field.
    (2) If [results] has no [items] but [resource] and [metrics], both are
    parsed, [items] of the parsed resource is the item list and [items] of
    the parsed metrics the metrics list.  Where this reading throws, the
    handler throws the same and leaves the world as it was; otherwise the
    item loop runs over the item list with a map that answers every name
    with the entry of that name in the metrics list (nothing is shown when
    the parsed resource has no [items]).  For a list of resource items and a
    list of metrics entries the rows are the merged items, each with its
    [flat] field.  (3) If [results] has neither [items] nor both [resource]
    and [metrics], the component and the grid stay as they were. *)
Theorem payload_has_two_shapes (be : TauriAdapter) (rt : Runtime)
  (ev : Event) (w : World) (results : value) :
  ev_name ev = app_command_result be ->
  JSON_parse_value rt (lodash_get (payload ev) "data") = Ok results ->
  (has results "items" = true ->
   table_update (table_of rt Map_new (lodash_get results "items")) w
     (handleEvent be rt ev w)) /\
  (forall l ps,
     lodash_get results "items" = VArr l ps ->
     forallb resource_item l = true ->
     exists w',
       handleEvent be rt ev w = (Ok tt, w') /\
       shows (VArr (List.map (unmerged_row rt) l) ps) w w') /\
  (has results "items" = false ->
   has results "resource" = true ->
   has results "metrics" = true ->
   match resource_and_metrics rt results with
   | Throw e => handleEvent be rt ev w = (Throw e, w)
   | Ok (items, ms) =>
       exists mmap,
         keyed_by_name mmap ms /\
         if truthy items
         then table_update (table_of rt mmap items) w (handleEvent be rt ev w)
         else handleEvent be rt ev w = (Ok tt, w)
   end) /\
  (forall resource metrics l ps ms mps,
     has results "items" = false ->
     has results "resource" = true ->
     has results "metrics" = true ->
     JSON_parse_value rt (lodash_get results "resource") = Ok resource ->
     JSON_parse_value rt (lodash_get results "metrics") = Ok metrics ->
     lodash_get resource "items" = VArr l ps ->
     forallb resource_item l = true ->
     lodash_get metrics "items" = VArr ms mps ->
     forallb named ms = true ->
     forallb metrics_entry ms = true ->
     exists mmap w',
       keyed_by_name mmap ms /\
       handleEvent be rt ev w = (Ok tt, w') /\
       shows (VArr (List.map (rendered rt mmap) l) ps) w w') /\
  (has results "items" = false ->
   has results "resource" && has results "metrics" = false ->
   this (snd (handleEvent be rt ev w)) = this w /\
   aggrid (snd (handleEvent be rt ev w)) = aggrid w).
Proof.
  intros Hn Hp. split; [|split; [|split; [|split]]].
  - intros Hhas.
    apply handleEvent_table with results results; auto.
    + now apply join_shape_items.
    + now apply has_get with "items".
  - intros l ps Hl Hitems. now apply handleEvent_items with results.
  - intros Hi Hr Hm. now apply handleEvent_second_shape.
  - intros resource metrics l ps ms mps Hi Hr Hm Hpr Hpm Hl Hitems Hms
      Hnamed Hentries.
    now apply handleEvent_joins with results resource metrics mps.
  - intros Hi Hrm.
    now apply handleEvent_neither_shape with results.
Qed.

Lemma payload_has_two_shapes_witness :
  let be := Sample.beService in
  let rt := Reference.runtime in
  let ev := Sample.pods_with_metrics in
  let results := Sample.parsed ev in
  let resource := VObj [("items", VArr [Sample.web; Sample.db] [])] in
  let ms := [Sample.web_metrics; Sample.db_metrics] in
  let metrics := VObj [("items", VArr ms [])] in
  ev_name ev = app_command_result be /\
  JSON_parse_value rt (lodash_get (payload ev) "data") = Ok results /\
  has results "items" = false /\
  has results "resource" = true /\
  has results "metrics" = true /\
  JSON_parse_value rt (lodash_get results "resource") = Ok resource /\
  JSON_parse_value rt (lodash_get results "metrics") = Ok metrics /\
  forallb resource_item [Sample.web; Sample.db] = true /\
  forallb named ms = true /\
  forallb metrics_entry ms = true /\
  resource_and_metrics rt results
    = Ok (VArr [Sample.web; Sample.db] [], ms) /\
  exists mmap w',
    keyed_by_name mmap ms /\
    handleEvent be rt ev Sample.world = (Ok tt, w') /\
    shows (VArr (List.map (rendered rt mmap) [Sample.web; Sample.db]) [])
      Sample.world w'.
Proof.
  cbv zeta.
  assert (Hp : JSON_parse_value Reference.runtime
                 (lodash_get (payload Sample.pods_with_metrics) "data")
               = Ok (Sample.parsed Sample.pods_with_metrics))
    by (vm_compute; reflexivity).
  repeat (split; [first [assumption | vm_compute; reflexivity]|]).
  destruct (payload_has_two_shapes Sample.beService Reference.runtime
              Sample.pods_with_metrics Sample.world _ eq_refl Hp)
    as (_ & _ & _ & Hjoin & _).
  apply (Hjoin (VObj [("items", VArr [Sample.web; Sample.db] [])])
               (VObj [("items",
                       VArr [Sample.web_metrics; Sample.db_metrics] [])])
               [Sample.web; Sample.db] []
               [Sample.web_metrics; Sample.db_metrics] []);
    vm_compute; reflexivity.
Defined.

(** ** The sample events, run *)

(** The list with metrics: [usage] reaches the first container of the
    first pod and nothing else. *)
Example pods_with_metrics_spec_of_rows :
  match rowData (this (snd (handleEvent Sample.beService Reference.runtime
                              Sample.pods_with_metrics Sample.world))) with
  | VArr rows _ => List.map (fun row => lodash_get row "spec") rows
  | _ => []
  end =
  [ VObj [("containers",
           VArr [VObj [("name", VStr "nginx");
                       ("resources",
                        VObj [("limits", VObj [("cpu", VStr "1")]);
                              ("usage", VObj [("cpu", VStr "3m");
                                              ("memory", VStr "9Mi")])])];
                 VObj [("name", VStr "sidecar"); ("resources", VObj [])]]
                [])];
    VObj [("containers",
           VArr [VObj [("name", VStr "postgres"); ("resources", VObj [])]]
                [])] ].
Proof. vm_compute. reflexivity. Qed.

(** The [flat] field of the second pod, as the reference [flatten] makes
    it. *)
Example pods_flat_of_second_row :
  match rowData (this (snd (handleEvent Sample.beService Reference.runtime
                              Sample.pods Sample.world))) with
  | VArr [_; row] _ => lodash_get row "flat"
  | _ => VUndefined
  end =
  VObj [("metadata.name", VStr "db");
        ("spec.containers.0.name", VStr "postgres");
        ("spec.containers.0.resources", VObj [])].
Proof. vm_compute. reflexivity. Qed.

(** Before the teardown the sample events do reach the component. *)
Example delivery_before_ngOnDestroy :
  delivered
    (emit_all Sample.beService Reference.runtime 7
       [backend_result Sample.pods; app_signal "app::events" "escape_hit"]
       (mount Sample.beService 7 Sample.pod_view Sample.before))
  = [Result Sample.pods; Lifecycle "escape_hit"].
Proof. vm_compute. reflexivity. Qed.

(* ===================================================================== *)
(** * Further properties of the component *)
(* ===================================================================== *)

(** ** What [handleEvent] does to its surroundings *)

Lemma with_this_same w : with_this (this w) w = w.
Proof. now destruct w. Qed.

(** The handler's outcome and the rows it shows depend on the event alone;
    the world it leaves is the world it found, with the log line of a failed
    parse and with those rows. *)
Lemma handleEvent_effect be rt ev :
  exists out upd,
    (forall e, out = Throw e -> upd = None) /\
    forall w,
      let w1 := match JSON_parse_value rt (lodash_get (payload ev) "data") with
                | Ok _ => w
                | Throw _ => logged "Failed to parse payload" w
                end in
      handleEvent be rt ev w = (out, with_this (updated upd (this w1)) w1).
Proof.
  pose proof (handleEvent_cases be rt ev) as Hc. cbn zeta in Hc.
  destruct (String.eqb (ev_name ev) (app_command_result be)).
  2:{ exists (Ok tt), None. split; [reflexivity|]. intros w. cbn zeta.
      rewrite Hc. simpl. now rewrite with_this_same. }
  destruct (join_shape rt _ Map_new) as [[results mmap]|e].
  2:{ exists (Throw e), None. split; [reflexivity|]. intros w. cbn zeta.
      rewrite Hc. simpl. now rewrite with_this_same. }
  destruct (get results "items") as [items|e].
  2:{ exists (Throw e), None. split; [reflexivity|]. intros w. cbn zeta.
      rewrite Hc. simpl. now rewrite with_this_same. }
  destruct (truthy items).
  2:{ exists (Ok tt), None. split; [reflexivity|]. intros w. cbn zeta.
      rewrite Hc. simpl. now rewrite with_this_same. }
  destruct (elements items) as [l|e].
  2:{ exists (Throw e), None. split; [reflexivity|]. intros w. cbn zeta.
      rewrite Hc. simpl. now rewrite with_this_same. }
  destruct (forEach (each_item rt mmap) l) as [l'|e].
  2:{ exists (Throw e), None. split; [reflexivity|]. intros w. cbn zeta.
      rewrite Hc. simpl. now rewrite with_this_same. }
  exists (Ok tt), (Some (with_elements items l')).
  split; [discriminate|]. intros w. cbn zeta. now rewrite Hc.
Qed.

(** X1.  A [handleEvent] that throws has changed nothing but the console:
    the world it leaves is the world it found, with the line of the failed
    parse when the data did not parse.  No table is left half updated. *)
Theorem handleEvent_throw_changes_nothing (be : TauriAdapter) (rt : Runtime)
  (ev : Event) (w : World) (e : exn) :
  fst (handleEvent be rt ev w) = Throw e ->
  snd (handleEvent be rt ev w) =
    match JSON_parse_value rt (lodash_get (payload ev) "data") with
    | Ok _ => w
    | Throw _ => logged "Failed to parse payload" w
    end.
Proof.
  destruct (handleEvent_effect be rt ev) as (out & upd & Hthrow & Hw).
  rewrite (Hw w). cbn zeta. simpl. intros ->.
  rewrite (Hthrow e eq_refl). simpl. apply with_this_same.
Qed.

Lemma handleEvent_throw_changes_nothing_witness :
  fst (handleEvent Sample.beService Reference.runtime
         Scenario.item_without_spec Sample.world) = Throw TypeError /\
  snd (handleEvent Sample.beService Reference.runtime
         Scenario.item_without_spec Sample.world) = Sample.world.
Proof.
  split; [reflexivity|].
  exact (handleEvent_throw_changes_nothing Sample.beService Reference.runtime
           Scenario.item_without_spec Sample.world TypeError eq_refl).
Defined.

(** X2.  Whatever the event, [handleEvent] leaves the sidebar, the
    selection, the resource, the column definitions and the subscription of
    the component as they were, and with them the timers, the grid, the
    registrations and the subscriptions around it. *)
Theorem handleEvent_frame (be : TauriAdapter) (rt : Runtime)
  (ev : Event) (w : World) :
  let w' := snd (handleEvent be rt ev w) in
  isSideBarHidden (this w') = isSideBarHidden (this w) /\
  selectedapp (this w') = selectedapp (this w) /\
  resource (this w') = resource (this w) /\
  columnDefs (this w') = columnDefs (this w) /\
  subscription (this w') = subscription (this w) /\
  timers w' = timers w /\
  aggrid w' = aggrid w /\
  listeners w' = listeners w /\
  eventBus w' = eventBus w.
Proof.
  destruct (handleEvent_effect be rt ev) as (out & upd & _ & Hw).
  cbn zeta. rewrite (Hw w). cbn zeta.
  destruct (JSON_parse_value rt _); destruct upd; simpl; auto 10.
Qed.

(** X3.  [handleEvent] writes to the console exactly when the data of the
    event does not parse, on any channel, and then the one line
    [Failed to parse payload]; an exception after the parse is not logged. *)
Theorem handleEvent_logs_parse_failure_only (be : TauriAdapter)
  (rt : Runtime) (ev : Event) (w : World) :
  console (snd (handleEvent be rt ev w)) =
    (console w ++
     match JSON_parse_value rt (lodash_get (payload ev) "data") with
     | Ok _ => []
     | Throw _ => ["Failed to parse payload"]
     end)%list.
Proof.
  destruct (handleEvent_effect be rt ev) as (out & upd & _ & Hw).
  rewrite (Hw w). cbn zeta.
  destruct (JSON_parse_value rt _); simpl; [now rewrite app_nil_r|reflexivity].
Qed.

(** The outcome and the rows shown depend on the event alone, and rows are
    shown only after a parse that succeeded, so that nothing else changes
    with them. *)
Lemma handleEvent_effect_shows be rt ev :
  exists out upd,
    forall w,
      fst (handleEvent be rt ev w) = out /\
      match upd with
      | Some rows => shows rows w (snd (handleEvent be rt ev w))
      | None => this (snd (handleEvent be rt ev w)) = this w
      end.
Proof.
  pose proof (handleEvent_cases be rt ev) as Hc. cbn zeta in Hc.
  destruct (JSON_parse_value rt (lodash_get (payload ev) "data"))
    as [results|e0].
  - destruct (String.eqb (ev_name ev) (app_command_result be)).
    2:{ exists (Ok tt), None. intros w. rewrite Hc. auto. }
    destruct (join_shape rt _ Map_new) as [[results' mmap]|e].
    2:{ exists (Throw e), None. intros w. rewrite Hc. auto. }
    destruct (get results' "items") as [items|e].
    2:{ exists (Throw e), None. intros w. rewrite Hc. auto. }
    destruct (truthy items).
    2:{ exists (Ok tt), None. intros w. rewrite Hc. auto. }
    destruct (elements items) as [l|e].
    2:{ exists (Throw e), None. intros w. rewrite Hc. auto. }
    destruct (forEach (each_item rt mmap) l) as [l'|e].
    2:{ exists (Throw e), None. intros w. rewrite Hc. auto. }
    exists (Ok tt), (Some (with_elements items l')). intros w. rewrite Hc.
    split; [reflexivity|apply shows_show_items].
  - destruct (String.eqb (ev_name ev) (app_command_result be)).
    + exists (Throw TypeError), None. intros w. rewrite Hc. auto.
    + exists (Ok tt), None. intros w. rewrite Hc. auto.
Qed.

(** X4.  What [handleEvent] does to the component depends on the event
    alone: it leaves the component as it is, or it sets [isLoading] to false
    and [rowData] and [rowData$] to the rows of the event and leaves every
    other field of the component and everything around it as it was.  Rows
    shown before are neither kept nor added to, and whether the handler
    throws does not depend on the state. *)
Theorem handleEvent_replaces_rows (be : TauriAdapter) (rt : Runtime)
  (ev : Event) :
  exists out upd,
    forall w,
      let w' := snd (handleEvent be rt ev w) in
      fst (handleEvent be rt ev w) = out /\
      match upd with
      | Some rows =>
          isLoading (this w') = false /\
          rowData (this w') = rows /\
          rowData_obs (this w') = from rows /\
          isSideBarHidden (this w') = isSideBarHidden (this w) /\
          columnDefs (this w') = columnDefs (this w) /\
          resource (this w') = resource (this w) /\
          selectedapp (this w') = selectedapp (this w) /\
          subscription (this w') = subscription (this w) /\
          (console w', timers w', aggrid w', listeners w', eventBus w',
           delivered w')
            = (console w, timers w, aggrid w, listeners w, eventBus w,
               delivered w)
      | None => this w' = this w
      end.
Proof.
  destruct (handleEvent_effect_shows be rt ev) as (out & upd & H).
  exists out, upd. intros w. cbn zeta. destruct (H w) as [Hout Hupd].
  split; [exact Hout|]. destruct upd; exact Hupd.
Qed.

(** ** Failures inside the payload *)

Lemma get_throw v k e : get v k = Throw e -> e = TypeError.
Proof.
  destruct v; simpl; try discriminate; try (now intros [= <-]);
    destruct (String.eqb k "length"); discriminate.
Qed.

Lemma get_index_throw v i e : get_index v i = Throw e -> e = TypeError.
Proof.
  destruct v; simpl; try discriminate; try (now intros [= <-]).
  destruct (String.get i s); discriminate.
Qed.

Lemma set_throw v k x e : set v k x = Throw e -> e = TypeError.
Proof. destruct v; simpl; try discriminate; now intros [= <-]. Qed.

Lemma elements_throw v e : elements v = Throw e -> e = TypeError.
Proof. destruct v; simpl; try discriminate; now intros [= <-]. Qed.

Ltac only_TypeError :=
  repeat match goal with
  | H : Ok _ = Throw _ |- _ => discriminate H
  | H : Throw _ = Throw _ |- _ => injection H as <-
  | H : get _ _ = Throw _ |- _ => apply get_throw in H; subst
  | H : get_index _ _ = Throw _ |- _ => apply get_index_throw in H; subst
  | H : set _ _ _ = Throw _ |- _ => apply set_throw in H; subst
  | H : elements _ = Throw _ |- _ => apply elements_throw in H; subst
  | H : bind ?r _ = Throw _ |- _ =>
      let E := fresh "E" in destruct r eqn:E; cbn [bind] in H
  | H : (if ?b then _ else _) = Throw _ |- _ => destruct b
  end;
  try reflexivity.

(** The item loop throws nothing but a [TypeError]. *)
Lemma each_item_throw rt mmap item e :
  each_item rt mmap item = Throw e -> e = TypeError.
Proof. unfold each_item, merge_usage. intros H. only_TypeError. Qed.

Lemma forEach_throw f l : forall e,
  (forall x e, f x = Throw e -> e = TypeError) ->
  forEach f l = Throw e -> e = TypeError.
Proof.
  intros e Hf. induction l as [|x l IH]; simpl; [discriminate|].
  destruct (f x) as [y|e0] eqn:Ex; simpl.
  - destruct (forEach f l); simpl; [discriminate|].
    intros [= <-]. now apply IH.
  - intros [= <-]. now apply (Hf x).
Qed.

Lemma forEach_stops f l x e :
  In x l -> f x = Throw e -> exists e', forEach f l = Throw e'.
Proof.
  induction l as [|y l IH]; intros Hin Hx; [contradiction|]. simpl.
  destruct (f y) as [y'|e0] eqn:Ey; simpl; [|eauto].
  destruct Hin as [-> | Hin]; [congruence|].
  destruct (IH Hin Hx) as [e' ->]. simpl. eauto.
Qed.

Lemma each_item_lacks_spec rt mmap item :
  lacks_spec item = true -> each_item rt mmap item = Throw TypeError.
Proof.
  unfold lacks_spec, each_item, merge_usage.
  destruct (get item "spec") as [spec|e] eqn:E; simpl.
  - destruct spec; try discriminate; reflexivity.
  - now rewrite (get_throw _ _ _ E).
Qed.

(** X5.  One item without a [spec] stops the whole list: when the items of
    a result include an item whose [spec] is missing or [null], or that is
    [null] itself, [handleEvent] throws a [TypeError] from the item loop and
    shows no row, not even those of the items before it.  Nothing is logged
    and nothing changes. *)
Theorem item_without_spec_stops_the_list (be : TauriAdapter) (rt : Runtime)
  (ev : Event) (w : World) (results item : value) (l : list value)
  (ps : list (string * value)) :
  ev_name ev = app_command_result be ->
  JSON_parse_value rt (lodash_get (payload ev) "data") = Ok results ->
  lodash_get results "items" = VArr l ps ->
  In item l ->
  lacks_spec item = true ->
  handleEvent be rt ev w = (Throw TypeError, w).
Proof.
  intros Hn Hp Hl Hin Hlack. rewrite handleEvent_cases. cbn zeta.
  rewrite Hn, String.eqb_refl, Hp.
  assert (Hhas : has results "items" = true) by (unfold has; now rewrite Hl).
  rewrite (join_shape_items rt _ Hhas), (lodash_get_array _ _ _ _ Hl). simpl.
  destruct (forEach_stops _ _ _ _ Hin (each_item_lacks_spec rt Map_new _ Hlack))
    as [e He].
  rewrite He.
  now rewrite (forEach_throw _ _ e (each_item_throw rt Map_new) He).
Qed.

Lemma item_without_spec_stops_the_list_witness :
  let ev := Scenario.item_without_spec in
  let item := VObj [("metadata", VObj [("name", VStr "job")])] in
  let l := [VObj [("metadata", VObj [("name", VStr "web")]); ("spec", VObj [])];
            item] in
  ev_name ev = app_command_result Sample.beService /\
  JSON_parse_value Reference.runtime (lodash_get (payload ev) "data")
    = Ok (Sample.parsed ev) /\
  lodash_get (Sample.parsed ev) "items" = VArr l [] /\
  In item l /\
  lacks_spec item = true /\
  handleEvent Sample.beService Reference.runtime ev Sample.world
    = (Throw TypeError, Sample.world).
Proof.
  cbv zeta.
  assert (Hin : In (VObj [("metadata", VObj [("name", VStr "job")])])
                  [VObj [("metadata", VObj [("name", VStr "web")]);
                         ("spec", VObj [])];
                   VObj [("metadata", VObj [("name", VStr "job")])]])
    by (right; left; reflexivity).
  repeat (split; [first [exact Hin | vm_compute; reflexivity]|]).
  exact (item_without_spec_stops_the_list Sample.beService Reference.runtime
           Scenario.item_without_spec Sample.world _ _ _ []
           eq_refl eq_refl eq_refl Hin eq_refl).
Defined.

(** X6.  In the shape with [resource] and [metrics], a [resource] or a
    [metrics] string that is no JSON text makes [handleEvent] throw the
    [SyntaxError] of [JSON.parse]: this parse is not inside the [try].  Nothing
    is logged, nothing is shown, nothing changes. *)
Theorem inner_parse_failure_is_thrown (be : TauriAdapter) (rt : Runtime)
  (ev : Event) (w : World) (results : value) :
  ev_name ev = app_command_result be ->
  JSON_parse_value rt (lodash_get (payload ev) "data") = Ok results ->
  has results "items" = false ->
  has results "resource" = true ->
  has results "metrics" = true ->
  JSON_parse rt (ToString (lodash_get results "resource")) = None \/
  (exists parsed items,
     JSON_parse rt (ToString (lodash_get results "resource")) = Some parsed /\
     get parsed "items" = Ok items /\
     JSON_parse rt (ToString (lodash_get results "metrics")) = None) ->
  handleEvent be rt ev w = (Throw SyntaxError, w).
Proof.
  intros Hn Hp Hi Hr Hm Hfail. rewrite handleEvent_cases. cbn zeta.
  rewrite Hn, String.eqb_refl, Hp.
  assert (Hj : join_shape rt results Map_new = Throw SyntaxError).
  { unfold join_shape.
    rewrite !(has_get results "resource") by assumption. simpl bind.
    unfold has in Hi, Hr, Hm. rewrite Hi, Hr, Hm. simpl.
    unfold JSON_parse_value.
    destruct Hfail as [-> | (parsed & items & -> & Hitems & Hmet)];
      [reflexivity|].
    simpl bind. rewrite Hitems. simpl bind.
    rewrite set_items by assumption. simpl bind.
    rewrite get_put_other by discriminate.
    rewrite (has_get results "resource") by assumption. simpl bind.
    now rewrite Hmet. }
  now rewrite Hj.
Qed.

Lemma inner_parse_failure_is_thrown_witness :
  let ev := Scenario.broken_resource in
  let results := Sample.parsed ev in
  ev_name ev = app_command_result Sample.beService /\
  JSON_parse_value Reference.runtime (lodash_get (payload ev) "data")
    = Ok results /\
  has results "items" = false /\
  has results "resource" = true /\
  has results "metrics" = true /\
  lodash_get results "resource" = VStr "oops" /\
  JSON_parse Reference.runtime (ToString (lodash_get results "resource"))
    = None /\
  handleEvent Sample.beService Reference.runtime ev Sample.world
    = (Throw SyntaxError, Sample.world).
Proof.
  cbv zeta. repeat (split; [vm_compute; reflexivity|]).
  apply (inner_parse_failure_is_thrown Sample.beService Reference.runtime
           Scenario.broken_resource Sample.world
           (Sample.parsed Scenario.broken_resource));
    try (vm_compute; reflexivity).
  left. vm_compute; reflexivity.
Defined.

(** X7.  In the shape with [resource] and [metrics], metrics that parse to
    a value without a list [items] make [handleEvent] throw a [TypeError]
    before any item is looked at: the resource list, though complete, is not
    shown, and nothing changes. *)
Theorem metrics_without_items_stop_the_event (be : TauriAdapter)
  (rt : Runtime) (ev : Event) (w : World)
  (results parsed items metrics : value) (e : exn) :
  ev_name ev = app_command_result be ->
  JSON_parse_value rt (lodash_get (payload ev) "data") = Ok results ->
  has results "items" = false ->
  has results "resource" = true ->
  has results "metrics" = true ->
  JSON_parse_value rt (lodash_get results "resource") = Ok parsed ->
  get parsed "items" = Ok items ->
  JSON_parse_value rt (lodash_get results "metrics") = Ok metrics ->
  elements (lodash_get metrics "items") = Throw e ->
  handleEvent be rt ev w = (Throw TypeError, w).
Proof.
  intros Hn Hp Hi Hr Hm Hpr Hitems Hpm Hel. rewrite handleEvent_cases.
  cbn zeta. rewrite Hn, String.eqb_refl, Hp.
  assert (Hj : join_shape rt results Map_new = Throw TypeError).
  { unfold join_shape.
    rewrite !(has_get results "resource") by assumption. simpl bind.
    unfold has in Hi, Hr, Hm. rewrite Hi, Hr, Hm. simpl.
    rewrite Hpr. simpl bind. rewrite Hitems. simpl bind.
    rewrite set_items by assumption. simpl bind.
    rewrite get_put_other by discriminate.
    rewrite (has_get results "resource") by assumption. simpl bind.
    rewrite Hpm. simpl bind. unfold lodash_get in Hel.
    destruct (get metrics "items") as [mitems|e0] eqn:Eg; simpl bind.
    - rewrite Hel. simpl. now rewrite (elements_throw _ _ Hel).
    - now rewrite (get_throw _ _ _ Eg). }
  now rewrite Hj.
Qed.

Lemma metrics_without_items_stop_the_event_witness :
  let ev := Scenario.metrics_without_items in
  let results := Sample.parsed ev in
  ev_name ev = app_command_result Sample.beService /\
  JSON_parse_value Reference.runtime (lodash_get (payload ev) "data")
    = Ok results /\
  has results "items" = false /\
  has results "resource" = true /\
  has results "metrics" = true /\
  JSON_parse_value Reference.runtime (lodash_get results "resource")
    = Ok (VObj [("items", VArr [] [])]) /\
  JSON_parse_value Reference.runtime (lodash_get results "metrics")
    = Ok (VObj []) /\
  handleEvent Sample.beService Reference.runtime ev Sample.world
    = (Throw TypeError, Sample.world).
Proof.
  cbv zeta. repeat (split; [vm_compute; reflexivity|]).
  apply (metrics_without_items_stop_the_event Sample.beService
           Reference.runtime Scenario.metrics_without_items Sample.world
           (Sample.parsed Scenario.metrics_without_items)
           (VObj [("items", VArr [] [])]) (VArr [] []) (VObj []) TypeError);
    vm_compute; reflexivity.
Defined.

(** ** Scheduling and the life cycle *)

Lemma scheduled_nil delay cmds : scheduled delay cmds = [] -> cmds = [].
Proof. destruct cmds; [reflexivity|discriminate]. Qed.

(** X8.  [initialize] leaves the world as it found it exactly when the
    resource has no command list or an empty one; the optional chaining on
    [resource.command] makes the missing list a case that does not throw. *)
Theorem initialize_does_nothing_iff (w : World) :
  fst (initialize w) = Ok tt /\
  (snd (initialize w) = w <->
   resource_command (resource (this w)) = None \/
   resource_command (resource (this w)) = Some []).
Proof.
  rewrite initialize_scheduled. simpl. split; [reflexivity|].
  destruct (resource_command (resource (this w))) as [cmds|]; [|tauto].
  split.
  - intros H. right. f_equal. apply (scheduled_nil 0).
    apply (f_equal timers) in H. simpl in H.
    apply (app_inv_head (timers w)). now rewrite app_nil_r.
  - intros [H | [= ->]]; [discriminate|]. apply add_timers_nil.
Qed.

(** X9.  [initialize] only adds timers: it cancels none and reorders none.
    Run twice, as by [ngOnInit] and a namespace change soon after, it leaves
    every initial command scheduled twice, the second round again from delay
    0. *)
Theorem initialize_twice_schedules_twice (w : World) :
  let w' := snd (initialize (snd (initialize w))) in
  timers w' =
    (timers w ++ initial_timers (this w) ++ initial_timers (this w))%list /\
  this w' = this w.
Proof.
  cbn zeta. rewrite !initialize_scheduled. unfold initial_timers. simpl.
  destruct (resource_command (resource (this w))) as [cmds|] eqn:E; simpl.
  - rewrite E. simpl. now rewrite app_assoc.
  - rewrite E. simpl. now rewrite app_nil_r.
Qed.

(** X10.  A signal that is none of [cluster_changed], [ns_changed] and
    [escape_hit] is ignored by the subscriber: it returns and nothing
    changes. *)
Theorem unknown_signal_is_ignored (be : TauriAdapter) (data : string)
  (w : World) :
  data <> cluster_changed be ->
  data <> ns_changed be ->
  data <> escape_hit be ->
  on_app_event be data w = (Ok tt, w).
Proof.
  intros H1 H2 H3. unfold on_app_event.
  destruct (String.eqb_spec data (cluster_changed be)); [contradiction|].
  destruct (String.eqb_spec data (ns_changed be)); [contradiction|].
  destruct (String.eqb_spec data (escape_hit be)); [contradiction|].
  reflexivity.
Qed.

Lemma unknown_signal_is_ignored_witness :
  "theme_changed" <> cluster_changed Sample.beService /\
  "theme_changed" <> ns_changed Sample.beService /\
  "theme_changed" <> escape_hit Sample.beService /\
  on_app_event Sample.beService "theme_changed" Sample.world
    = (Ok tt, Sample.world).
Proof.
  repeat (split; [discriminate|]).
  apply (unknown_signal_is_ignored Sample.beService "theme_changed"
           Sample.world); discriminate.
Defined.

(** The world a mount leaves, field by field. *)
Lemma mount_world be me r w :
  mount be me r w =
    let token := S (list_max (List.map token_of (eventBus w))) in
    {| this :=
         {| isLoading := true;
            isSideBarHidden := true;
            columnDefs := columns r;
            resource := r;
            rowData_obs := Observable_new;
            rowData := VArr [] [];
            selectedapp := VUndefined;
            subscription := Some token |};
       console := console w;
       timers := (timers w ++ match resource_command r with
                              | Some cmds => scheduled 0 cmds
                              | None => []
                              end)%list;
       aggrid := aggrid w;
       listeners := (listeners w ++ [(app_command_result be, me)])%list;
       eventBus := (eventBus w ++ [(app_events be, token, me)])%list;
       delivered := delivered w |}.
Proof.
  unfold mount, seq, constructor, set_resource, ngOnInit, update_this, modify,
    registerListener, seq. simpl.
  rewrite initialize_scheduled. simpl.
  destruct (resource_command r); simpl; rewrite ?app_nil_r; reflexivity.
Qed.

(** X11.  After the constructor, the [resource] input and [ngOnInit] the
    view is loading with the sidebar hidden, no row and no selection, whatever
    the component record held before; its column definitions are those of the
    resource; its listener is registered once, on the result channel; it holds
    the token of one new subscription to the application's events; and the
    commands of the resource are scheduled behind the timers that were
    there. *)
Theorem mounted_view (be : TauriAdapter) (me : nat) (r : Resource)
  (w : World) :
  let w' := mount be me r w in
  let token := S (list_max (List.map token_of (eventBus w))) in
  this w' =
    {| isLoading := true;
       isSideBarHidden := true;
       columnDefs := columns r;
       resource := r;
       rowData_obs := Observable_new;
       rowData := VArr [] [];
       selectedapp := VUndefined;
       subscription := Some token |} /\
  listeners w' = (listeners w ++ [(app_command_result be, me)])%list /\
  eventBus w' = (eventBus w ++ [(app_events be, token, me)])%list /\
  (forall s, In s (eventBus w) -> token_of s <> token) /\
  timers w' =
    (timers w ++ match resource_command r with
                 | Some cmds => scheduled 0 cmds
                 | None => []
                 end)%list /\
  (console w', aggrid w', delivered w') = (console w, aggrid w, delivered w).
Proof.
  cbn zeta. rewrite mount_world. cbn zeta. simpl.
  assert (Hfresh : forall s, In s (eventBus w) ->
            token_of s <> S (list_max (List.map token_of (eventBus w)))).
  { intros s Hs Heq.
    assert (Hle : (token_of s <= list_max (List.map token_of (eventBus w)))%nat).
    { pose proof (proj1 (list_max_le (List.map token_of (eventBus w)) _)
                    (Nat.le_refl _)) as Hall.
      rewrite Forall_forall in Hall. apply Hall. now apply in_map. }
    lia. }
  auto 10.
Qed.

(** X12.  [ngOnDestroy] cancels no timer: a view that is torn down right
    after it was mounted leaves all the commands of its resource scheduled,
    and they are still due. *)
Theorem ngOnDestroy_leaves_timers (be : TauriAdapter) (me : nat)
  (r : Resource) (w : World) :
  timers (snd (ngOnDestroy me (mount be me r w))) =
    (timers w ++ match resource_command r with
                 | Some cmds => scheduled 0 cmds
                 | None => []
                 end)%list.
Proof.
  rewrite mount_world. cbn zeta.
  unfold ngOnDestroy, seq, unRegisterListener, unsubscribe, modify.
  reflexivity.
Qed.

(** ** Selection and the sidebar *)

Lemma onSelect_selected app data w :
  get app "data" = Ok data ->
  onSelect app w = (Ok tt, with_this (selected data (this w)) w).
Proof.
  intros H. unfold onSelect, seq, lift, set_selectedapp, set_isSideBarHidden,
    update_this, modify. now rewrite H.
Qed.

Lemma onSelect_throws app e w :
  get app "data" = Throw e -> onSelect app w = (Throw e, w).
Proof. intros H. unfold onSelect, seq, lift. now rewrite H. Qed.

(** X13.  [onSelect] toggles the sidebar whatever row is clicked: after two
    clicks the sidebar is as it was before the first, also when the second
    click is on another row, which then is the selection while the sidebar is
    closed again.  Nothing else changes. *)
Theorem onSelect_twice (a b da db : value) (w : World) :
  get a "data" = Ok da ->
  get b "data" = Ok db ->
  exists w',
    (onSelect a ;; onSelect b)%stmt w = (Ok tt, w') /\
    isSideBarHidden (this w') = isSideBarHidden (this w) /\
    selectedapp (this w') = db /\
    same_but_selection (this w) (this w') /\
    (console w', timers w', aggrid w', listeners w', eventBus w') =
      (console w, timers w, aggrid w, listeners w, eventBus w).
Proof.
  intros Ha Hb. unfold seq.
  rewrite (onSelect_selected a da w Ha), (onSelect_selected b db _ Hb).
  eexists. split; [reflexivity|]. simpl. rewrite negb_involutive.
  unfold same_but_selection. simpl. auto 10.
Qed.

Lemma onSelect_twice_witness :
  let a := Scenario.click Sample.web in
  let b := Scenario.click Sample.db in
  get a "data" = Ok Sample.web /\
  get b "data" = Ok Sample.db /\
  exists w',
    (onSelect a ;; onSelect b)%stmt Sample.world = (Ok tt, w') /\
    isSideBarHidden (this w') = true /\
    selectedapp (this w') = Sample.db.
Proof.
  cbv zeta. split; [reflexivity|]. split; [reflexivity|].
  destruct (onSelect_twice (Scenario.click Sample.web)
              (Scenario.click Sample.db) Sample.web Sample.db Sample.world
              eq_refl eq_refl) as (w' & H1 & H2 & H3 & _).
  exists w'. auto.
Defined.

(** X14.  The escape key closes the sidebar a click opened and keeps the
    selection: after [onSelect] and the signal [escape_hit] the sidebar is
    hidden, whether the click had opened or closed it, and the selection is
    the clicked row. *)
Theorem escape_after_onSelect (be : TauriAdapter) (app data : value)
  (w : World) :
  escape_hit be <> cluster_changed be ->
  escape_hit be <> ns_changed be ->
  get app "data" = Ok data ->
  exists w',
    (onSelect app ;; on_app_event be (escape_hit be))%stmt w = (Ok tt, w') /\
    isSideBarHidden (this w') = true /\
    selectedapp (this w') = data /\
    same_but_selection (this w) (this w').
Proof.
  intros H1 H2 Ha. unfold seq. rewrite (onSelect_selected app data w Ha).
  unfold on_app_event.
  destruct (String.eqb_spec (escape_hit be) (cluster_changed be));
    [contradiction|].
  destruct (String.eqb_spec (escape_hit be) (ns_changed be)); [contradiction|].
  rewrite String.eqb_refl. simpl.
  destruct (isSideBarHidden (this w)) eqn:E; simpl;
    (eexists; split; [reflexivity|]); unfold same_but_selection; simpl;
    rewrite ?E; simpl; auto 10.
Qed.

Lemma escape_after_onSelect_witness :
  escape_hit Sample.beService <> cluster_changed Sample.beService /\
  escape_hit Sample.beService <> ns_changed Sample.beService /\
  get (Scenario.click Sample.web) "data" = Ok Sample.web /\
  exists w',
    (onSelect (Scenario.click Sample.web) ;;
     on_app_event Sample.beService "escape_hit")%stmt Sample.world
      = (Ok tt, w') /\
    isSideBarHidden (this w') = true /\
    selectedapp (this w') = Sample.web.
Proof.
  split; [discriminate|]. split; [discriminate|]. split; [reflexivity|].
  destruct (escape_after_onSelect Sample.beService (Scenario.click Sample.web)
              Sample.web Sample.world) as (w' & H1 & H2 & H3 & _);
    try discriminate; try reflexivity.
  exists w'. auto.
Defined.

(** ** What holds along every run *)

Lemma on_app_event_component be data w :
  selectedapp (this (snd (on_app_event be data w))) = selectedapp (this w) /\
  rowData (this (snd (on_app_event be data w))) = rowData (this w) /\
  (isLoading (this w) = true ->
   isLoading (this (snd (on_app_event be data w))) = true).
Proof.
  unfold on_app_event.
  destruct (String.eqb data (cluster_changed be)).
  { unfold seq, set_isLoading, update_this, clearTable, modify, seq. simpl.
    destruct (aggrid w); simpl; auto. }
  destruct (String.eqb data (ns_changed be)).
  { unfold seq, set_isLoading, update_this, clearTable, modify, seq. simpl.
    destruct (aggrid w); [|simpl; auto].
    rewrite initialize_scheduled. simpl.
    destruct (resource_command _); simpl; auto. }
  destruct (String.eqb data (escape_hit be)); [|simpl; auto].
  destruct (isSideBarHidden (this w)); simpl; auto.
Qed.

Lemma onSelect_component app w :
  rowData (this (snd (onSelect app w))) = rowData (this w) /\
  isLoading (this (snd (onSelect app w))) = isLoading (this w).
Proof.
  destruct (get app "data") as [data|e] eqn:E.
  - now rewrite (onSelect_selected app data w E).
  - now rewrite (onSelect_throws app e w E).
Qed.

Lemma initialize_component w : this (snd (initialize w)) = this w.
Proof.
  rewrite initialize_scheduled. simpl. now destruct (resource_command _).
Qed.

(** X15.  Only [handleEvent] ends the loading state: along any run of
    lifecycle signals, clicks and calls of [initialize] a view that is loading
    stays loading.  A view whose commands bring no result shows the spinner
    for good. *)
Theorem loading_until_a_result (be : TauriAdapter) (rt : Runtime)
  (ss : list Step) (w : World) :
  forallb (fun s => negb (is_handleEvent s)) ss = true ->
  isLoading (this w) = true ->
  isLoading (this (run be rt ss w)) = true.
Proof.
  unfold run. revert w. induction ss as [|s ss IH]; intros w Hss Hw; [exact Hw|].
  simpl in Hss. apply andb_prop in Hss as [Hs Hss]. simpl.
  apply IH; [exact Hss|].
  destruct s as [ev|data|app|]; simpl in *; [discriminate| | |].
  - now apply (on_app_event_component be data w).
  - now rewrite (proj2 (onSelect_component app w)).
  - now rewrite initialize_component.
Qed.

Lemma loading_until_a_result_witness :
  let ss := [calls_subscriber "ns_changed";
             calls_onSelect (Scenario.click Sample.web);
             calls_subscriber "escape_hit"; calls_initialize] in
  forallb (fun s => negb (is_handleEvent s)) ss = true /\
  isLoading (this Sample.world) = true /\
  isLoading (this (run Sample.beService Reference.runtime ss Sample.world))
    = true.
Proof.
  cbv zeta. split; [reflexivity|]. split; [reflexivity|].
  exact (loading_until_a_result Sample.beService Reference.runtime
           [calls_subscriber "ns_changed";
            calls_onSelect (Scenario.click Sample.web);
            calls_subscriber "escape_hit"; calls_initialize]
           Sample.world eq_refl eq_refl).
Defined.

Lemma set_flat_inv item x row :
  set item "flat" x = Ok row ->
  truthy row = true /\ get row "flat" = Ok x.
Proof.
  destruct item; simpl; try discriminate; intros [= <-]; simpl;
    now rewrite lookup_assoc_set_same.
Qed.

Lemma each_item_flattened rt mmap item row :
  each_item rt mmap item = Ok row -> flattened_row rt row.
Proof.
  unfold each_item. destruct (merge_usage rt mmap item) as [item1|];
    [|discriminate].
  simpl. intros H. now exists item1.
Qed.

Lemma forEach_Forall (P : value -> Prop) f l : forall l',
  (forall x y, f x = Ok y -> P y) ->
  forEach f l = Ok l' -> Forall P l'.
Proof.
  induction l as [|x l IH]; intros l' Hf; simpl.
  - intros [= <-]. constructor.
  - destruct (f x) as [y|] eqn:Ex; [|discriminate]. simpl.
    destruct (forEach f l) as [l0|]; [|discriminate]. simpl.
    intros [= <-]. constructor; [now apply (Hf x)|now apply IH].
Qed.

Lemma elements_inv v l : elements v = Ok l -> exists ps, v = VArr l ps.
Proof. destruct v; simpl; try discriminate. intros [= <-]. eauto. Qed.

Lemma handleEvent_rows_flattened be rt ev w :
  rows_flattened rt (this w) ->
  rows_flattened rt (this (snd (handleEvent be rt ev w))).
Proof.
  intros Hw. rewrite handleEvent_cases. cbn zeta.
  assert (H1 : rows_flattened rt
                 (this match JSON_parse_value rt
                               (lodash_get (payload ev) "data") with
                       | Ok _ => w
                       | Throw _ => logged "Failed to parse payload" w
                       end))
    by (now destruct (JSON_parse_value rt _)).
  destruct (String.eqb _ _); [|exact H1].
  destruct (join_shape rt _ _) as [[results mmap]|]; [|exact H1].
  destruct (get results "items") as [items|]; [|exact H1].
  destruct (truthy items); [|exact H1].
  destruct (elements items) as [l|] eqn:El; [|exact H1].
  destruct (forEach _ _) as [l'|] eqn:Ef; [|exact H1].
  destruct (elements_inv _ _ El) as [ps ->]. simpl.
  exists l', ps. split; [reflexivity|].
  apply (forEach_Forall _ _ _ _ (each_item_flattened rt mmap) Ef).
Qed.

(** X16.  Every row of the table carries its flattened form: once all rows
    of [rowData] are items to which [flat] was assigned, as in the empty
    table of a new view, they are so after any run of result events,
    lifecycle signals, clicks and calls of [initialize]. *)
Theorem rows_stay_flattened (be : TauriAdapter) (rt : Runtime)
  (ss : list Step) (w : World) :
  rows_flattened rt (this w) ->
  rows_flattened rt (this (run be rt ss w)).
Proof.
  unfold run. revert w. induction ss as [|s ss IH]; intros w Hw; [exact Hw|].
  simpl. apply IH. destruct s as [ev|data|app|]; simpl.
  - now apply handleEvent_rows_flattened.
  - destruct (on_app_event_component be data w) as (_ & Hr & _).
    unfold rows_flattened in *. now rewrite Hr.
  - unfold rows_flattened in *.
    now rewrite (proj1 (onSelect_component app w)).
  - now rewrite initialize_component.
Qed.

Lemma rows_stay_flattened_witness :
  let w := mount Sample.beService 7 Sample.pod_view Sample.before in
  let ss := [calls_handleEvent Sample.pods_with_metrics;
             calls_subscriber "cluster_changed";
             calls_handleEvent Sample.malformed] in
  rows_flattened Reference.runtime (this w) /\
  rows_flattened Reference.runtime
    (this (run Sample.beService Reference.runtime ss w)).
Proof.
  cbv zeta.
  assert (H : rows_flattened Reference.runtime
                (this (mount Sample.beService 7 Sample.pod_view Sample.before))).
  { exists [], []. split; [reflexivity|constructor]. }
  split; [exact H|].
  exact (rows_stay_flattened Sample.beService Reference.runtime _ _ H).
Defined.

(** ** [getAttrValue] *)

(** X17.  A click on a row of the table makes every attribute of that row
    readable: when the rows are flattened and [app.data] is one of them,
    [getAttrValue] after [onSelect(app)] reads the field in the flattened
    form of the row's item, the same as [flatten(item)[field]]. *)
Theorem getAttrValue_of_clicked_row (rt : Runtime) (w : World)
  (app row : value) (rows : list value) (ps : list (string * value)) :
  rows_flattened rt (this w) ->
  rowData (this w) = VArr rows ps ->
  In row rows ->
  get app "data" = Ok row ->
  exists item,
    set item "flat" (flatten rt item) = Ok row /\
    forall field,
      getAttrValue field (snd (onSelect app w)) = get (flatten rt item) field.
Proof.
  intros (rows' & ps' & Hr' & Hall) Hr Hin Happ.
  rewrite Hr in Hr'. injection Hr' as <- <-.
  rewrite Forall_forall in Hall. destruct (Hall row Hin) as [item Hitem].
  exists item. split; [exact Hitem|]. intros field.
  rewrite (onSelect_selected app row w Happ). unfold getAttrValue. simpl.
  destruct (set_flat_inv _ _ _ Hitem) as [-> ->]. reflexivity.
Qed.

Lemma getAttrValue_of_clicked_row_witness :
  let w := Scenario.shown in
  let row := Scenario.first_row in
  rows_flattened Reference.runtime (this w) /\
  (exists rest, rowData (this w) = VArr (row :: rest) []) /\
  get (Scenario.click row) "data" = Ok row /\
  (exists item,
     set item "flat" (flatten Reference.runtime item) = Ok row /\
     forall field,
       getAttrValue field (snd (onSelect (Scenario.click row) w))
         = get (flatten Reference.runtime item) field) /\
  getAttrValue "spec.containers.0.resources.usage.cpu"
    (snd (onSelect (Scenario.click row) w)) = Ok (VStr "3m").
Proof.
  cbv zeta.
  assert (H : rows_flattened Reference.runtime (this Scenario.shown)).
  { apply (handleEvent_rows_flattened Sample.beService Reference.runtime
             Sample.pods_with_metrics
             (mount Sample.beService 7 Sample.pod_view Sample.before)).
    exists [], []. split; [reflexivity|constructor]. }
  split; [exact H|]. split; [eexists; vm_compute; reflexivity|].
  split; [reflexivity|]. split; [|vm_compute; reflexivity].
  exact (getAttrValue_of_clicked_row Reference.runtime Scenario.shown
           (Scenario.click Scenario.first_row) Scenario.first_row
           _ [] H eq_refl (or_introl eq_refl) eq_refl).
Defined.

Lemma handleEvent_selectedapp be rt ev w :
  selectedapp (this (snd (handleEvent be rt ev w))) = selectedapp (this w).
Proof.
  destruct (handleEvent_effect be rt ev) as (out & upd & _ & Hw).
  rewrite (Hw w). cbn zeta.
  destruct (JSON_parse_value rt _); destruct upd; reflexivity.
Qed.

(** X18.  Without a click there is no attribute: as long as the selection
    is [undefined], [null] or another falsy value, as it is in a new view,
    [getAttrValue] answers ['N/A'] for every field, and no run of result
    events, lifecycle signals and calls of [initialize] changes that. *)
Theorem getAttrValue_without_selection (be : TauriAdapter) (rt : Runtime)
  (ss : list Step) (w : World) (field : string) :
  forallb (fun s => negb (is_onSelect s)) ss = true ->
  truthy (selectedapp (this w)) = false ->
  getAttrValue field (run be rt ss w) = Ok (VStr "N/A").
Proof.
  intros Hss Hw.
  assert (Hsel : selectedapp (this (run be rt ss w)) = selectedapp (this w)).
  { unfold run. revert w Hw. induction ss as [|s ss IH]; intros w Hw;
      [reflexivity|].
    simpl in Hss. apply andb_prop in Hss as [Hs Hss]. simpl.
    assert (Hstep : selectedapp (this (step be rt s w))
                    = selectedapp (this w)).
    { destruct s as [ev|data|app|]; simpl in *; [| |discriminate|].
      - apply handleEvent_selectedapp.
      - apply (on_app_event_component be data w).
      - now rewrite initialize_component. }
    rewrite (IH Hss); [exact Hstep|now rewrite Hstep]. }
  unfold getAttrValue. now rewrite Hsel, Hw.
Qed.

Lemma getAttrValue_without_selection_witness :
  let w := mount Sample.beService 7 Sample.pod_view Sample.before in
  let ss := [calls_handleEvent Sample.pods_with_metrics;
             calls_subscriber "ns_changed"; calls_initialize] in
  forallb (fun s => negb (is_onSelect s)) ss = true /\
  truthy (selectedapp (this w)) = false /\
  getAttrValue "metadata.name" (run Sample.beService Reference.runtime ss w)
    = Ok (VStr "N/A").
Proof.
  cbv zeta. split; [reflexivity|]. split; [reflexivity|].
  exact (getAttrValue_without_selection Sample.beService Reference.runtime
           [calls_handleEvent Sample.pods_with_metrics;
            calls_subscriber "ns_changed"; calls_initialize]
           (mount Sample.beService 7 Sample.pod_view Sample.before)
           "metadata.name" eq_refl eq_refl).
Defined.

(** X19.  The optional chaining of [getAttrValue] guards the selection, not
    its [flat]: with a selected object that has no [flat] field, such as an
    item that did not pass through [handleEvent], [getAttrValue] throws a
    [TypeError] for every field. *)
Theorem getAttrValue_without_flat (w : World) (app : value)
  (ps : list (string * value)) (field : string) :
  get app "data" = Ok (VObj ps) ->
  assoc "flat" ps = None ->
  getAttrValue field (snd (onSelect app w)) = Throw TypeError.
Proof.
  intros Happ Hflat. rewrite (onSelect_selected app _ w Happ).
  unfold getAttrValue. simpl. unfold lookup. now rewrite Hflat.
Qed.

Lemma getAttrValue_without_flat_witness :
  get (Scenario.click Sample.web) "data" = Ok Sample.web /\
  getAttrValue "metadata.name"
    (snd (onSelect (Scenario.click Sample.web) Scenario.shown))
    = Throw TypeError.
Proof.
  split; [reflexivity|].
  exact (getAttrValue_without_flat Scenario.shown (Scenario.click Sample.web)
           _ "metadata.name" eq_refl eq_refl).
Defined.

(** ** [onAction] *)

Lemma filter_first {A} (p : A -> bool) (l : list A) :
  match hd_error (filter p l) with
  | Some a =>
      exists before after,
        l = (before ++ a :: after)%list /\ p a = true /\
        forall b, In b before -> p b = false
  | None => forall b, In b l -> p b = false
  end.
Proof.
  induction l as [|x l IH]; simpl; [tauto|].
  destruct (p x) eqn:Ex; simpl.
  - exists [], l. repeat split; [assumption|]. intros b [].
  - destruct (hd_error (filter p l)) as [a|].
    + destruct IH as (before & after & -> & Ha & Hb).
      exists (x :: before), after. repeat split; [assumption|].
      intros b [<- | Hin]; [assumption|now apply Hb].
    + intros b [<- | Hin]; [assumption|now apply IH].
Qed.

(** X20.  [onAction] calls at most one callback, with the selection as its
    argument: the callback of the first action of the given name, also when
    later actions have the same name.  When no action has the name, or the
    resource has no actions, it calls nothing and does not throw. *)
Theorem onAction_calls_first_match (actions : list Action) (name : string)
  (w : World) :
  onAction None name w = None /\
  match onAction (Some actions) name w with
  | Some (cb, arg) =>
      arg = selectedapp (this w) /\
      exists before ac after,
        actions = (before ++ ac :: after)%list /\
        action_name ac = name /\
        callback ac = cb /\
        forall b, In b before -> action_name b <> name
  | None => forall b, In b actions -> action_name b <> name
  end.
Proof.
  split; [reflexivity|]. unfold onAction.
  pose proof (filter_first (fun ac => String.eqb (action_name ac) name)
                actions) as H.
  destruct (hd_error (filter _ actions)) as [ac|].
  - destruct H as (before & after & -> & Hac & Hb).
    split; [reflexivity|]. exists before, ac, after.
    repeat split; [now apply String.eqb_eq|].
    intros b Hin. apply String.eqb_neq. now apply Hb.
  - intros b Hin. apply String.eqb_neq. now apply H.
Qed.

(** Of the two actions named [restart] the first is called. *)
Example onAction_on_duplicate_names :
  onAction (Some Scenario.actions) "restart" Sample.world
    = Some ("restart_pod", VUndefined) /\
  onAction (Some Scenario.actions) "delete" Sample.world = None.
Proof. split; reflexivity. Qed.

(** ** The empty list *)

(** X21.  An empty list is a result like any other: an event of the result
    channel whose [items] is the empty array ends the loading state and
    leaves the table with no row, where a payload without [items] would
    leave the view loading. *)
Theorem empty_list_ends_loading (be : TauriAdapter) (rt : Runtime)
  (ev : Event) (w : World) (results : value) (ps : list (string * value)) :
  ev_name ev = app_command_result be ->
  JSON_parse_value rt (lodash_get (payload ev) "data") = Ok results ->
  lodash_get results "items" = VArr [] ps ->
  exists w',
    handleEvent be rt ev w = (Ok tt, w') /\
    isLoading (this w') = false /\
    rowData (this w') = VArr [] ps /\
    rowData_obs (this w') = from (VArr [] ps).
Proof.
  intros Hn Hp Hl.
  assert (Hhas : has results "items" = true) by (unfold has; now rewrite Hl).
  rewrite (handleEvent_renders be rt ev w results results Map_new [] ps
             Hn Hp (join_shape_items rt _ Hhas)
             (lodash_get_array _ _ _ _ Hl) eq_refl eq_refl).
  eexists. split; [reflexivity|]. simpl. auto.
Qed.

Lemma empty_list_ends_loading_witness :
  let ev := Sample.event (Reference.text "{'items':[]}") in
  ev_name ev = app_command_result Sample.beService /\
  JSON_parse_value Reference.runtime (lodash_get (payload ev) "data")
    = Ok (VObj [("items", VArr [] [])]) /\
  isLoading (this Sample.world) = true /\
  exists w',
    handleEvent Sample.beService Reference.runtime ev Sample.world
      = (Ok tt, w') /\
    isLoading (this w') = false /\
    rowData (this w') = VArr [] [] /\
    rowData_obs (this w') = from (VArr [] []).
Proof.
  cbv zeta. repeat (split; [vm_compute; reflexivity|]).
  exact (empty_list_ends_loading Sample.beService Reference.runtime
           (Sample.event (Reference.text "{'items':[]}")) Sample.world
           (VObj [("items", VArr [] [])]) [] eq_refl eq_refl eq_refl).
Defined.
